(** * Tanglin tennis court reservations: a model of [handler.py]

    [TanglinTennisCourtHandler] drives a Chrome session through the club's
    booking site.  The handler is embedded as state-passing code over an
    abstract outside world (the browser session, the site behind it and
    the wall clock), which is reached only through the calls the source
    makes on Selenium, [pd.Timestamp.now], [time.sleep] and [print].
    Every such call is also appended to a trace, together with each entry
    into [_reserve_time], so that statements can speak about what the
    handler did and in which order.  The one loop that need not end, the
    sleeping loop of [_wait], runs on fuel. *)

From Stdlib Require Import ZArith String Ascii List Bool Lia.
From Stdlib Require Import DecimalString.
Import ListNotations.

Open Scope string_scope.
Open Scope Z_scope.

(** ** Python strings and formatting *)

(** The line feed of the source's ["\n"]. *)
Definition nl : string := String (ascii_of_nat 10) EmptyString.

(** [str(z)] and [f'{z}'] for an [int]: decimal digits, a minus sign when
    negative. *)
Definition str (z : Z) : string := NilZero.string_of_int (Z.to_int z).

(** [sep.join(parts)]. *)
Definition join (sep : string) (parts : list string) : string :=
  String.concat sep parts.

Fixpoint zeros (n : nat) : string :=
  match n with
  | O => ""
  | S n' => "0" ++ zeros n'
  end.

(** [f'{z:0{width}d}']: the sign first, then zeros up to [width]
    characters in all. *)
Definition fmt_0d (width : nat) (z : Z) : string :=
  let digits := str (Z.abs z) in
  let sign := if z <? 0 then "-" else "" in
  sign ++ zeros (width - String.length sign - String.length digits) ++ digits.

(** White space as [str.strip] sees it, on the ASCII range. *)
Definition is_space (c : ascii) : bool :=
  let n := nat_of_ascii c in
  ((9 <=? n) && (n <=? 13) || (28 <=? n) && (n <=? 32))%nat.

Fixpoint lstrip (s : string) : string :=
  match s with
  | EmptyString => EmptyString
  | String c s' => if is_space c then lstrip s' else s
  end.

Fixpoint rstrip (s : string) : string :=
  match s with
  | EmptyString => EmptyString
  | String c s' =>
      match rstrip s' with
      | EmptyString => if is_space c then EmptyString else String c EmptyString
      | r => String c r
      end
  end.

(** [s.strip()]. *)
Definition strip (s : string) : string := rstrip (lstrip s).

(** [needle in s]. *)
Fixpoint contains (needle s : string) : bool :=
  prefix needle s ||
  match s with
  | EmptyString => false
  | String _ s' => contains needle s'
  end.

(** ** Exceptions and results *)

(** The exceptions the handler meets.  All but [KeyboardInterrupt] are
    instances of Python's [Exception]; [KeyboardInterrupt] derives from
    [BaseException] only, so [except Exception] lets it through while a
    bare [except:] catches it. *)
Inductive exn : Type :=
| TimeoutException (msg : string)
| WebDriverException (msg : string)
| RuntimeError (msg : string)
| AssertionError (msg : string)
| ValueError (msg : string)
| KeyboardInterrupt.

(** [isinstance(e, Exception)]. *)
Definition is_Exception (e : exn) : bool :=
  match e with
  | KeyboardInterrupt => false
  | _ => true
  end.

(** [isinstance(e, TimeoutException)]. *)
Definition is_TimeoutException (e : exn) : bool :=
  match e with
  | TimeoutException _ => true
  | _ => false
  end.

(** [e.msg]. *)
Definition exn_msg (e : exn) : string :=
  match e with
  | TimeoutException m | WebDriverException m | RuntimeError m
  | AssertionError m | ValueError m => m
  | KeyboardInterrupt => ""
  end.

(** How a call ends: it returns, it raises, or it is still running when
    the fuel of the model is spent (only the sleeping loop of [_wait] can
    do that). *)
Inductive result (A : Type) : Type :=
| Ok (a : A)
| Raise (e : exn)
| Hang.

Arguments Ok {A} a.
Arguments Raise {A} e.
Arguments Hang {A}.

(** ** Hour labels *)

(** The label of [_reserve_time] (lines 159-164): the text a slot of the
    table shows for the hour [time]. *)
Definition time_text (time : Z) : string :=
  if time <? 12 then str time ++ ":00 AM"
  else if time =? 12 then "12:00 PM"
  else str (time mod 12) ++ ":00 PM".

(** ** Timestamps *)

(** A naive [pd.Timestamp]: nanoseconds since the epoch, as pandas keeps
    it in [value]. *)
Definition Timestamp : Type := Z.

Definition ns_per_us : Z := 1000.
Definition ns_per_second : Z := 1000000000.
Definition ns_per_minute : Z := 60 * ns_per_second.
Definition ns_per_hour : Z := 60 * ns_per_minute.
Definition ns_per_day : Z := 24 * ns_per_hour.

Definition ts_hour (ts : Timestamp) : Z := (ts / ns_per_hour) mod 24.
Definition ts_minute (ts : Timestamp) : Z := (ts / ns_per_minute) mod 60.
Definition ts_second (ts : Timestamp) : Z := (ts / ns_per_second) mod 60.
Definition ts_microsecond (ts : Timestamp) : Z := (ts / ns_per_us) mod 1000000.

(** [ts.floor('d')]: midnight of the same day. *)
Definition floor_d (ts : Timestamp) : Timestamp := ts - ts mod ns_per_day.

(** [ts + pd.offsets.Day(n)]. *)
Definition add_days (ts : Timestamp) (n : Z) : Timestamp := ts + n * ns_per_day.

(** [ts.replace(hour=h, minute=m, second=s)]: the other fields are kept;
    a field out of its range is a [ValueError]. *)
Definition replace_hms (ts : Timestamp) (h m s : Z) : result Timestamp :=
  if negb ((0 <=? h) && (h <=? 23)) then Raise (ValueError "hour must be in 0..23")
  else if negb ((0 <=? m) && (m <=? 59)) then Raise (ValueError "minute must be in 0..59")
  else if negb ((0 <=? s) && (s <=? 59)) then Raise (ValueError "second must be in 0..59")
  else Ok (floor_d ts + h * ns_per_hour + m * ns_per_minute + s * ns_per_second
           + ts mod ns_per_second).

(** The opening time of [_wait] (lines 91-94), for the fields [hour],
    [minute], [second] read from [till] and the clock reading [now]. *)
Definition opening_time (hour minute second : Z) (now : Timestamp) : result Timestamp :=
  if (ts_hour now >=? hour) && (ts_minute now >=? minute)
     && (ts_second now >=? second) && (ts_microsecond now >? 0)
  then replace_hms (add_days (floor_d now) 1) hour minute second
  else replace_hms (floor_d now) hour minute second.

(** [np.ceil((opening_time - now).total_seconds())], in whole seconds:
    the ceiling of the difference in nanoseconds over 10^9. *)
Definition sleep_duration (opening now : Timestamp) : Z :=
  - ((- (opening - now)) / ns_per_second).

(** ** The outside world *)

(** [selenium.webdriver.common.by.By], the two strategies the handler uses. *)
Inductive By : Type :=
| ID
| CSS_SELECTOR.

Definition locator : Type := (By * string)%type.

(** How a call on the world ends. *)
Inductive outcome (A : Type) : Type :=
| Returns (a : A)
| Raises (e : exn).

Arguments Returns {A} a.
Arguments Raises {A} e.

(** What the handler asks of the world outside the Python process.  [Env]
    is the state of that world, [WebElement] a handle on a node of the
    page.  Every call may change the world, and all but the clock may
    raise. *)
Class WebDriver (Env WebElement : Type) : Type := {
  (** [driver.get(url)] *)
  driver_get : string -> Env -> outcome unit * Env;
  (** [driver.find_element(by, value)] *)
  driver_find_element : By -> string -> Env -> outcome WebElement * Env;
  (** [driver.find_elements(by, value)] *)
  driver_find_elements : By -> string -> Env -> outcome (list WebElement) * Env;
  (** [element.text] *)
  element_text : WebElement -> Env -> outcome string * Env;
  (** [element.click()] *)
  element_click : WebElement -> Env -> outcome unit * Env;
  (** [element.send_keys(keys)] *)
  element_send_keys : WebElement -> string -> Env -> outcome unit * Env;
  (** [WebDriverWait(driver, wait).until(ec.presence_of_element_located(locator))] *)
  wait_until_present : locator -> Z -> Env -> outcome unit * Env;
  (** [pd.Timestamp.now()] *)
  timestamp_now : Env -> Timestamp * Env;
  (** [time.sleep(seconds)] *)
  time_sleep : Z -> Env -> outcome unit * Env
}.

(** One entry of the trace: a call on the world, a line printed, or the
    entry into [_reserve_time] for an hour. *)
Inductive event (WebElement : Type) : Type :=
| EvGet (url : string)
| EvFindElement (by_ : By) (value : string)
| EvFindElements (by_ : By) (value : string)
| EvText (e : WebElement)
| EvClick (e : WebElement)
| EvSendKeys (e : WebElement) (keys : string)
| EvWaitPresent (loc : locator) (wait : Z)
| EvNow
| EvSleep (seconds : Z)
| EvPrint (line : string)
| EvReserveTime (time : Z).

Arguments EvGet {WebElement} url.
Arguments EvFindElement {WebElement} by_ value.
Arguments EvFindElements {WebElement} by_ value.
Arguments EvText {WebElement} e.
Arguments EvClick {WebElement} e.
Arguments EvSendKeys {WebElement} e keys.
Arguments EvWaitPresent {WebElement} loc wait.
Arguments EvNow {WebElement}.
Arguments EvSleep {WebElement} seconds.
Arguments EvPrint {WebElement} line.
Arguments EvReserveTime {WebElement} time.

(** The handler object with the world it acts on: [_username],
    [_password] and [_is_logged_in] are the attributes of lines 16-19,
    [driver] stands for [_driver] and all that lies behind it. *)
Record Handler (Env WebElement : Type) : Type := mkHandler {
  driver : Env;
  _username : string;
  _password : string;
  _is_logged_in : bool;
  trace : list (event WebElement)
}.

Arguments mkHandler {Env WebElement} driver _username _password _is_logged_in trace.
Arguments driver {Env WebElement} h.
Arguments _username {Env WebElement} h.
Arguments _password {Env WebElement} h.
Arguments _is_logged_in {Env WebElement} h.
Arguments trace {Env WebElement} h.

(** The lines printed so far, oldest first. *)
Fixpoint printed {WebElement : Type} (tr : list (event WebElement)) : list string :=
  match tr with
  | [] => []
  | EvPrint line :: tr' => line :: printed tr'
  | _ :: tr' => printed tr'
  end.

(** The hours [_reserve_time] was entered for, oldest first. *)
Fixpoint hours_attempted {WebElement : Type} (tr : list (event WebElement)) : list Z :=
  match tr with
  | [] => []
  | EvReserveTime t :: tr' => t :: hours_attempted tr'
  | _ :: tr' => hours_attempted tr'
  end.

(** The elements clicked so far, oldest first. *)
Fixpoint clicked {WebElement : Type} (tr : list (event WebElement)) : list WebElement :=
  match tr with
  | [] => []
  | EvClick e :: tr' => e :: clicked tr'
  | _ :: tr' => clicked tr'
  end.

(** The number of bounded waits for an element so far. *)
Fixpoint waits {WebElement : Type} (tr : list (event WebElement)) : nat :=
  match tr with
  | [] => O
  | EvWaitPresent _ _ :: tr' => S (waits tr')
  | _ :: tr' => waits tr'
  end.

(** A call on the world: neither a printed line nor an entry into
    [_reserve_time]. *)
Definition is_call {WebElement : Type} (ev : event WebElement) : bool :=
  match ev with
  | EvPrint _ | EvReserveTime _ => false
  | _ => true
  end.

(** A call on the world or the line ["Here"] printed. *)
Definition is_call_or_here {WebElement : Type} (ev : event WebElement) : bool :=
  match ev with
  | EvPrint line => String.eqb line "Here"
  | EvReserveTime _ => false
  | _ => true
  end.

(** How one round of the loop over the candidate hours ends (lines
    36-44): the method returned, or the loop goes on with the failures
    recorded so far. *)
Inductive round : Type :=
| Returned
| Continue (failures : list Z).

(** ** The handler *)

Section Handler.

Context {Env WebElement : Type} {drv : WebDriver Env WebElement}.

Local Abbreviation State := (Handler Env WebElement).

(** A method body: it runs on the handler and leaves a result and the
    handler as it is afterwards. *)
Definition M (A : Type) : Type := State -> result A * State.

Definition ret {A : Type} (a : A) : M A := fun h => (Ok a, h).

Definition raise {A : Type} (e : exn) : M A := fun h => (Raise e, h).

Definition bind {A B : Type} (m : M A) (k : A -> M B) : M B :=
  fun h =>
    match m h with
    | (Ok a, h') => k a h'
    | (Raise e, h') => (Raise e, h')
    | (Hang, h') => (Hang, h')
    end.

Notation "x <- m ;; k" := (bind m (fun x => k))
  (at level 61, m at next level, right associativity).
Notation "m ;; k" := (bind m (fun _ => k))
  (at level 61, right associativity).

(** [try: body  except <catches>: handler]. *)
Definition try_except {A : Type} (body : M A) (catches : exn -> bool)
    (handler : exn -> M A) : M A :=
  fun h =>
    match body h with
    | (Raise e, h') => if catches e then handler e h' else (Raise e, h')
    | other => other
    end.

(** [assert cond, msg]. *)
Definition assert_ (cond : bool) (msg : string) : M unit :=
  if cond then ret tt else raise (AssertionError msg).

(** A call on the world: the event is recorded, the world moves on. *)
Definition call {A : Type} (ev : event WebElement) (op : Env -> outcome A * Env) : M A :=
  fun h =>
    let (r, d) := op (driver h) in
    (match r with Returns a => Ok a | Raises e => Raise e end,
     mkHandler d (_username h) (_password h) (_is_logged_in h) (trace h ++ [ev])%list).

Definition get (url : string) : M unit := call (EvGet url) (driver_get url).

Definition find_element (by_ : By) (value : string) : M WebElement :=
  call (EvFindElement by_ value) (driver_find_element by_ value).

Definition find_elements (by_ : By) (value : string) : M (list WebElement) :=
  call (EvFindElements by_ value) (driver_find_elements by_ value).

Definition text (e : WebElement) : M string := call (EvText e) (element_text e).

Definition click (e : WebElement) : M unit := call (EvClick e) (element_click e).

Definition send_keys (e : WebElement) (keys : string) : M unit :=
  call (EvSendKeys e keys) (element_send_keys e keys).

Definition until_present (loc : locator) (wait : Z) : M unit :=
  call (EvWaitPresent loc wait) (wait_until_present loc wait).

Definition now : M Timestamp :=
  call EvNow (fun d => let (t, d') := timestamp_now d in (Returns t, d')).

Definition sleep (seconds : Z) : M unit := call (EvSleep seconds) (time_sleep seconds).

(** [print(line)]. *)
Definition print (line : string) : M unit :=
  fun h => (Ok tt, mkHandler (driver h) (_username h) (_password h) (_is_logged_in h)
                             (trace h ++ [EvPrint line])%list).

(** [self._is_logged_in = b]. *)
Definition set_is_logged_in (b : bool) : M unit :=
  fun h => (Ok tt, mkHandler (driver h) (_username h) (_password h) b (trace h)).

(** Reads an attribute of [self]. *)
Definition self {A : Type} (attr : State -> A) : M A := fun h => (Ok (attr h), h).

(** *** [_check_element] (lines 188-199) *)

Definition _check_element (loc : locator) (err_post_message : string) (wait : Z) : M unit :=
  try_except
    (assert_ (wait >? 0) "wait must be a positive number" ;;
     until_present loc wait)
    is_TimeoutException
    (fun e =>
       let err_post_message := strip err_post_message in
       if String.eqb err_post_message "" then raise e
       else raise (TimeoutException (exn_msg e ++ nl ++ err_post_message))).

(** *** [_login] (lines 49-74) *)

Definition _chunk : string :=
  "p_lt_PageContent_pageplaceholder_p_lt_zoneRight_CHOLogin_LoginControl_ctl00_Login1_".

Definition _login : M unit :=
  logged_in <- self _is_logged_in ;;
  if logged_in then ret tt
  else
    get "https://thetanglinclub.clubhouseonline-e3.net/login.aspx" ;;
    let login_input_id := _chunk ++ "UserName" in
    let password_input_id := _chunk ++ "Password" in
    let login_button_id := _chunk ++ "LoginButton" in
    _check_element (ID, login_input_id) "Timeout encountered while loading login page" 1 ;;
    login_input <- find_element ID login_input_id ;;
    username <- self _username ;;
    send_keys login_input username ;;
    password_input <- find_element ID password_input_id ;;
    password <- self _password ;;
    send_keys password_input password ;;
    login_button <- find_element ID login_button_id ;;
    click login_button ;;
    let logged_in_header_id := "p_lt_Header_MyProfilePages_divSignedIn" in
    _check_element (ID, logged_in_header_id)
      "Could not identify div that ensures we are logged in" 1 ;;
    set_is_logged_in true.

(** *** [_wait] (lines 84-100) *)

(** The loop of lines 96-100; [fuel] bounds the number of sleeps. *)
Fixpoint wait_loop (fuel : nat) (now_ opening : Timestamp) : M unit :=
  if now_ <? opening then
    match fuel with
    | O => fun h => (Hang, h)
    | S fuel' =>
        sleep (sleep_duration opening now_) ;;
        now' <- now ;;
        wait_loop fuel' now' opening
    end
  else ret tt.

(** [_wait], on the three fields of [till] as
    [map(int, till.split(':'))] reads them. *)
Definition _wait (fuel : nat) (hour minute second : Z) : M unit :=
  now_ <- now ;;
  match opening_time hour minute second now_ with
  | Ok opening => wait_loop fuel now_ opening
  | Raise e => raise e
  | Hang => fun h => (Hang, h)
  end.

(** *** [_go_to_cms_page_and_wait] (lines 76-82) *)

Definition selector_css : string := "div.dropdown.ng-isolate-scope.ng-not-empty.ng-valid".

Definition _go_to_cms_page_and_wait (fuel : nat) (hour minute second : Z) : M unit :=
  get "https://thetanglinclub.clubhouseonline-e3.net/CMSModules/CHO/CourtManagement/CourtBooking.aspx" ;;
  _check_element (CSS_SELECTOR, selector_css) "Could not load Tennis booking table page" 1 ;;
  _wait fuel hour minute second.

(** *** [_set_options] (lines 102-156) *)

(** The calendar day of [pd.Timestamp(date)]. *)
Record Date : Type := mkDate {
  year : Z;
  month : Z;
  day_of_month : Z
}.

(** [%b] for the months 1 to 12. *)
Definition month_abbr (m : Z) : string :=
  nth (Z.to_nat (m - 1))
      ["Jan"; "Feb"; "Mar"; "Apr"; "May"; "Jun"; "Jul"; "Aug"; "Sep"; "Oct"; "Nov"; "Dec"] "".

(** [date.strftime('%b %#d')]: the abbreviated month and the day of the
    month without a leading zero. *)
Definition strftime_b_d (date : Date) : string :=
  month_abbr (month date) ++ " " ++ str (day_of_month date).

(** [f"{date:%Y-%m-%d}"]. *)
Definition strftime_Y_m_d (date : Date) : string :=
  fmt_0d 4 (year date) ++ "-" ++ fmt_0d 2 (month date) ++ "-" ++ fmt_0d 2 (day_of_month date).

Definition indoor_label : string := "Tennis Courts - Indoor Tennis Court.".
Definition outdoor_label : string := "Tennis Courts - Outdoor Tennis Court.".
Definition squash_singles_label : string := "Squash Courts - Singles Squash Courts".
Definition squash_doubles_label : string := "Squash Courts - Doubles Squash Courts".

(** The first [case] of line 123. *)
Definition is_court_label (label : string) : bool :=
  String.eqb label outdoor_label || String.eqb label indoor_label
  || String.eqb label squash_singles_label || String.eqb label squash_doubles_label.

(** The [case] of line 139. *)
Definition is_duration_label (label : string) : bool :=
  String.eqb label "1 hour" || String.eqb label "2 hours".

(** [f"{duration} hour{'s' if duration > 1 else ''}"]. *)
Definition duration_text (duration : Z) : string :=
  str duration ++ " hour" ++ (if duration >? 1 then "s" else "").

Definition option_li_selector : string := "li.ng-binding.ng-scope".

(** The local [_check_load_okay]. *)
Definition _check_load_okay : M unit :=
  _check_element (CSS_SELECTOR, "div.container.slick-initialized.slick-slider")
    "Could not load schedule table" 1.

(** The loop of lines 111-117 with its [else]. *)
Fixpoint select_date (es : list WebElement) (date : Date) (date_text : string) : M unit :=
  match es with
  | [] => raise (RuntimeError ("Could not find date " ++ strftime_Y_m_d date
                               ++ " in Tennis loading page"))
  | e :: es' =>
      t <- text e ;;
      if String.eqb t date_text then click e ;; _check_load_okay
      else select_date es' date date_text
  end.

(** [(indoors and e.text == 'Tennis Courts - Indoor Tennis Court.') or
    (not indoors and e.text == 'Tennis Courts - Outdoor Tennis Court.')],
    with the short cuts of [and] and [or]. *)
Definition shows_wanted_court (indoors : bool) (e : WebElement) : M bool :=
  left_ <- (if indoors then t <- text e ;; ret (String.eqb t indoor_label) else ret false) ;;
  if left_ then ret true
  else if negb indoors then t <- text e ;; ret (String.eqb t outdoor_label)
  else ret false.

(** The loop of lines 131-138 with its [else]. *)
Fixpoint pick_court (options : list WebElement) (indoors : bool) : M unit :=
  match options with
  | [] => raise (RuntimeError ("Could not detect " ++ (if indoors then "Indoors" else "Outdoors")
                               ++ " option"))
  | ee :: options' =>
      wanted <- shows_wanted_court indoors ee ;;
      if wanted then click ee ;; _check_load_okay
      else pick_court options' indoors
  end.

(** The loop of lines 147-154 with its [else]. *)
Fixpoint pick_duration (options : list WebElement) (duration_text : string) : M unit :=
  match options with
  | [] => raise (RuntimeError ("Could not detect " ++ duration_text ++ " option"))
  | ee :: options' =>
      t <- text ee ;;
      if String.eqb t duration_text then click ee ;; _check_load_okay ;; print "Here"
      else pick_duration options' duration_text
  end.

(** The body of the loop of line 121 for one dropdown [e]. *)
Definition set_dropdown (e : WebElement) (indoors : bool) (duration : Z) : M unit :=
  label <- text e ;;
  if is_court_label label then
    already <- shows_wanted_court indoors e ;;
    if already then ret tt
    else
      click e ;;
      _check_element (CSS_SELECTOR, selector_css ++ ".open")
        "Could not open court type selector" 1 ;;
      options <- find_elements CSS_SELECTOR option_li_selector ;;
      pick_court options indoors
  else if is_duration_label label then
    let duration_text := duration_text duration in
    shown <- text e ;;
    if String.eqb shown duration_text then ret tt
    else
      click e ;;
      _check_element (CSS_SELECTOR, selector_css ++ ".open") "" 1 ;;
      options <- find_elements CSS_SELECTOR option_li_selector ;;
      pick_duration options duration_text
  else ret tt.

(** The loop of line 121. *)
Fixpoint set_dropdowns (es : list WebElement) (indoors : bool) (duration : Z) : M unit :=
  match es with
  | [] => ret tt
  | e :: es' => set_dropdown e indoors duration ;; set_dropdowns es' indoors duration
  end.

Definition _set_options (date : Date) (indoors : bool) (duration : Z) : M unit :=
  let date_text := strftime_b_d date in
  dates <- find_elements CSS_SELECTOR "div.date.ng-binding" ;;
  select_date dates date date_text ;;
  dropdowns <- find_elements CSS_SELECTOR "a.dropdown-display.ng-binding" ;;
  set_dropdowns dropdowns indoors duration.

(** *** [_reserve_time] (lines 158-186) *)

Definition book_now_css : string := "a.btn.btn-primary.ng-binding".

(** Records the entry into [_reserve_time(time)] in the trace. *)
Definition enter_reserve_time (time : Z) : M unit :=
  fun h => (Ok tt, mkHandler (driver h) (_username h) (_password h) (_is_logged_in h)
                             (trace h ++ [EvReserveTime time])%list).

(** [[e for e in es if e.text == time_text]]. *)
Fixpoint with_text (es : list WebElement) (time_text : string) : M (list WebElement) :=
  match es with
  | [] => ret []
  | e :: es' =>
      t <- text e ;;
      rest <- with_text es' time_text ;;
      ret (if String.eqb t time_text then e :: rest else rest)
  end.

(** The [try] block of lines 172-181 for the element [e]; it ends in
    [return True]. *)
Definition book_steps (e : WebElement) : M bool :=
  click e ;;
  _check_element (CSS_SELECTOR, book_now_css)
    "Could not find 'Book Now' button, this is CRITICAL" 1 ;;
  book_now_button <- find_element CSS_SELECTOR book_now_css ;;
  click book_now_button ;;
  _check_element (CSS_SELECTOR, "h1.banner-title.ng-scope")
    "Could not locate success banner! THIS IS CRITICAL TOO" 1 ;;
  ret true.

(** One round of the loop of lines 170-184: [true] when the round reaches
    [return True], [false] when the bare [except:] passes. *)
Definition book (e : WebElement) : M bool :=
  try_except (book_steps e) (fun _ => true) (fun _ => ret false).

(** The loop of lines 170-186. *)
Fixpoint book_first (elements : list WebElement) : M bool :=
  match elements with
  | [] => ret false
  | e :: elements' =>
      booked <- book e ;;
      if booked then ret true else book_first elements'
  end.

Definition _reserve_time (time : Z) : M bool :=
  enter_reserve_time time ;;
  let time_text := time_text time in
  found <- find_elements CSS_SELECTOR "div.start-time.ng-binding.ng-scope" ;;
  elements <- with_text found time_text ;;
  book_first elements.

(** *** [make_reservations] (lines 27-47) *)

(** The argument of the [print] of line 40, a plain string literal. *)
Definition success_message : string :=
  "Made a reservation at time {t:02d}:00. Check your email for more information".

(** The argument of the [print] of line 47. *)
Definition failure_message (failures : list Z) : string :=
  "Did not manage to book times: " ++ nl
  ++ join nl (map (fun t => "  - " ++ fmt_0d 2 t ++ ":00") failures).

(** One round of the loop of lines 36-44. *)
Definition reserve_round (t : Z) (failures : list Z) : M round :=
  try_except
    (success <- _reserve_time t ;;
     if success then print success_message ;; ret Returned
     else ret (Continue failures))
    is_Exception
    (fun _ => ret (Continue (failures ++ [t])%list)).

(** The loop of lines 36-44. *)
Fixpoint reserve_times (times : list Z) (failures : list Z) : M round :=
  match times with
  | [] => ret (Continue failures)
  | t :: times' =>
      r <- reserve_round t failures ;;
      match r with
      | Returned => ret Returned
      | Continue failures' => reserve_times times' failures'
      end
  end.

(** Lines 28-33: the assertion, the login, the wait on the booking page
    and the filters. *)
Definition prepare (fuel : nat) (date : Date) (indoor : bool) (duration : Z) : M unit :=
  assert_ ((duration =? 1) || (duration =? 2)) "duration can only be 1 or 2 hours" ;;
  _login ;;
  _go_to_cms_page_and_wait fuel 6 59 56 ;;
  _set_options date indoor duration.

(** Lines 35-47. *)
Definition reserve_and_report (times : list Z) : M unit :=
  let failures := [] in
  r <- reserve_times times failures ;;
  match r with
  | Returned => ret tt
  | Continue failures =>
      if Z.of_nat (length failures) >? 0 then print (failure_message failures)
      else ret tt
  end.

Definition make_reservations (fuel : nat) (date : Date) (indoor : bool) (duration : Z)
    (times : list Z) : M unit :=
  prepare fuel date indoor duration ;;
  reserve_and_report times.

(** *** Shapes of method bodies *)

(** A method body emits [p] when every event it adds to the trace
    satisfies [p]. *)
Definition emits (p : event WebElement -> bool) {A : Type} (m : M A) : Prop :=
  forall h, exists evs,
    trace (snd (m h)) = (trace h ++ evs)%list /\ forallb p evs = true.

(** A method body comes back when it returns or raises. *)
Definition comes_back {A : Type} (m : M A) : Prop :=
  forall h, fst (m h) <> Hang.

End Handler.

(** ** A small site to run the handler on *)

Module Toy.

(** A node of the page: what locates it (a CSS selector or an id), the
    text it shows, and whether a click on it fails. *)
Record Element : Type := mkElement {
  css : string;
  label : string;
  stuck : bool
}.

(** The site: its page, its clock, and the selector at which the user
    interrupts [find_elements] with Ctrl-C (none when empty). *)
Record Site : Type := mkSite {
  page : list Element;
  clock : Timestamp;
  interrupt_at : string
}.

Definition located (value : string) (s : Site) : list Element :=
  filter (fun e => String.eqb (css e) value) (page s).

Definition find_one (value : string) (s : Site) : outcome Element * Site :=
  match located value s with
  | e :: _ => (Returns e, s)
  | [] => (Raises (WebDriverException "no such element"), s)
  end.

Definition find_all (value : string) (s : Site) : outcome (list Element) * Site :=
  if negb (String.eqb value "") && String.eqb value (interrupt_at s)
  then (Raises KeyboardInterrupt, s)
  else (Returns (located value s), s).

Definition click_on (e : Element) (s : Site) : outcome unit * Site :=
  if stuck e then (Raises (WebDriverException "element click intercepted"), s)
  else (Returns tt, s).

Definition wait_for (loc : locator) (s : Site) : outcome unit * Site :=
  match located (snd loc) s with
  | _ :: _ => (Returns tt, s)
  | [] => (Raises (TimeoutException "Message: "), s)
  end.

Definition sleep_for (seconds : Z) (s : Site) : outcome unit * Site :=
  (Returns tt, mkSite (page s) (clock s + seconds * ns_per_second) (interrupt_at s)).

#[export] Instance site_driver : WebDriver Site Element := {|
  driver_get := fun _ s => (Returns tt, s);
  driver_find_element := fun _ value s => find_one value s;
  driver_find_elements := fun _ value s => find_all value s;
  element_text := fun e s => (Returns (label e), s);
  element_click := click_on;
  element_send_keys := fun _ _ s => (Returns tt, s);
  wait_until_present := fun loc _ s => wait_for loc s;
  timestamp_now := fun s => (clock s, s);
  time_sleep := sleep_for
|}.

Definition slot_css : string := "div.start-time.ng-binding.ng-scope".

(** A slot of the table showing [text]. *)
Definition slot (text : string) (stuck : bool) : Element := mkElement slot_css text stuck.

(** The nodes the login, the booking page and the filters look for, with
    the outdoor courts and two hours already chosen, and the nodes of a
    booking that goes through. *)
Definition portal : list Element :=
  [ mkElement (_chunk ++ "UserName") "" false;
    mkElement (_chunk ++ "Password") "" false;
    mkElement (_chunk ++ "LoginButton") "Login" false;
    mkElement "p_lt_Header_MyProfilePages_divSignedIn" "" false;
    mkElement selector_css "" false;
    mkElement "div.date.ng-binding" "May 31" false;
    mkElement "div.date.ng-binding" "Jun 1" false;
    mkElement "div.container.slick-initialized.slick-slider" "" false;
    mkElement "a.dropdown-display.ng-binding" outdoor_label false;
    mkElement "a.dropdown-display.ng-binding" "2 hours" false;
    mkElement book_now_css "Book Now" false;
    mkElement "h1.banner-title.ng-scope" "Success" false ].

(** 06:59:56 sharp. *)
Definition at_065956 : Timestamp := 6 * ns_per_hour + 59 * ns_per_minute + 56 * ns_per_second.

(** One microsecond past 07:00:00. *)
Definition just_past_7 : Timestamp := 7 * ns_per_hour + 1 * ns_per_us.

Definition handler_on (s : Site) (logged_in : bool) : Handler Site Element :=
  mkHandler s "member" "secret" logged_in [].

(** The portal with the slots [slots], at 06:59:56. *)
Definition site_with (slots : list Element) : Site := mkSite (portal ++ slots) at_065956 "".

Definition june_1 : Date := mkDate 2024 6 1.

End Toy.


(** ** Words for the statements *)

(** The hours of a day. *)
Definition hours_of_day : list Z :=
  [0; 1; 2; 3; 4; 5; 6; 7; 8; 9; 10; 11; 12; 13; 14; 15; 16; 17; 18; 19; 20; 21; 22; 23].

(** The selector of the success banner (line 178). *)
Definition banner_css : string := "h1.banner-title.ng-scope".

Section Words.

Context {Env WebElement : Type}.

Local Abbreviation State := (Handler Env WebElement).
Local Abbreviation Trace := (list (event WebElement)).
Local Abbreviation Body := (@M Env WebElement).

(** The handler after a step that touches neither the flag nor the
    credentials. *)
Definition moved (h : State) (d : Env) (evs : Trace) : State :=
  mkHandler d (_username h) (_password h) (_is_logged_in h) (trace h ++ evs).

(** The five calls of a booking that goes through on the element [e]. *)
Definition booking_calls (e book_now_button : WebElement) : Trace :=
  [EvClick e;
   EvWaitPresent (CSS_SELECTOR, book_now_css) 1;
   EvFindElement CSS_SELECTOR book_now_css;
   EvClick book_now_button;
   EvWaitPresent (CSS_SELECTOR, banner_css) 1].

(** A method body that leaves the credentials and the flag alone. *)
Definition untouched {A : Type} (m : Body A) : Prop :=
  forall h, _username (snd (m h)) = _username h
            /\ _password (snd (m h)) = _password h
            /\ _is_logged_in (snd (m h)) = _is_logged_in h.

(** A method body that ends with the flag set when it returns, and with
    the flag as it was otherwise; the credentials stay. *)
Definition logs_in {A : Type} (m : Body A) : Prop :=
  forall h, _username (snd (m h)) = _username h
            /\ _password (snd (m h)) = _password h
            /\ match fst (m h) with
               | Ok _ => _is_logged_in (snd (m h)) = true
               | _ => _is_logged_in (snd (m h)) = _is_logged_in h
               end.

(** A method body that keeps the credentials, never clears the flag, and
    has the flag set whenever it returns. *)
Definition ends_logged_in {A : Type} (m : Body A) : Prop :=
  forall h, _username (snd (m h)) = _username h
            /\ _password (snd (m h)) = _password h
            /\ (_is_logged_in h = true -> _is_logged_in (snd (m h)) = true)
            /\ (forall a, fst (m h) = Ok a -> _is_logged_in (snd (m h)) = true).

End Words.

Section CallsOnTheWorld.

Context {Env WebElement : Type} {drv : WebDriver Env WebElement}.

(** The calls of a login that goes through, each on the world the one
    before left: from [d0] to [d9], with the user name typed into the
    element found by the id of the user-name field, the password into
    the one found by the id of the password field, and the click on the
    one found by the id of the login button. *)
Definition login_went_through (username password : string) (d0 d9 : Env)
    (login_input password_input login_button : WebElement) : Prop :=
  exists d1 d2 d3 d4 d5 d6 d7 d8,
    driver_get "https://thetanglinclub.clubhouseonline-e3.net/login.aspx" d0 = (Returns tt, d1)
    /\ wait_until_present (ID, _chunk ++ "UserName") 1 d1 = (Returns tt, d2)
    /\ driver_find_element ID (_chunk ++ "UserName") d2 = (Returns login_input, d3)
    /\ element_send_keys login_input username d3 = (Returns tt, d4)
    /\ driver_find_element ID (_chunk ++ "Password") d4 = (Returns password_input, d5)
    /\ element_send_keys password_input password d5 = (Returns tt, d6)
    /\ driver_find_element ID (_chunk ++ "LoginButton") d6 = (Returns login_button, d7)
    /\ element_click login_button d7 = (Returns tt, d8)
    /\ wait_until_present (ID, "p_lt_Header_MyProfilePages_divSignedIn") 1 d8
       = (Returns tt, d9).

(** The calls of a booking that goes through on the slot element [e],
    each on the world the one before left: from [d0] to [d5], with the
    second click on the element found by the selector of the Book Now
    button. *)
Definition booking_went_through (e book_now_button : WebElement) (d0 d5 : Env) : Prop :=
  exists d1 d2 d3 d4,
    element_click e d0 = (Returns tt, d1)
    /\ wait_until_present (CSS_SELECTOR, book_now_css) 1 d1 = (Returns tt, d2)
    /\ driver_find_element CSS_SELECTOR book_now_css d2 = (Returns book_now_button, d3)
    /\ element_click book_now_button d3 = (Returns tt, d4)
    /\ wait_until_present (CSS_SELECTOR, banner_css) 1 d4 = (Returns tt, d5).

End CallsOnTheWorld.

(** ** Properties *)

Section Properties.

Context {Env WebElement : Type} {drv : WebDriver Env WebElement}.

Local Abbreviation State := (Handler Env WebElement).
Local Abbreviation Trace := (list (event WebElement)).
Local Abbreviation Body := (@M Env WebElement).

(** *** Reading the trace *)

Lemma hours_attempted_app (tr1 tr2 : Trace) :
  hours_attempted (tr1 ++ tr2) = (hours_attempted tr1 ++ hours_attempted tr2)%list.
Proof.
  induction tr1 as [|ev tr1 IH]; simpl; [reflexivity|].
  destruct ev; simpl; rewrite IH; reflexivity.
Qed.

Lemma printed_app (tr1 tr2 : Trace) :
  printed (tr1 ++ tr2) = (printed tr1 ++ printed tr2)%list.
Proof.
  induction tr1 as [|ev tr1 IH]; simpl; [reflexivity|].
  destruct ev; simpl; rewrite IH; reflexivity.
Qed.

Lemma clicked_app (tr1 tr2 : Trace) :
  clicked (tr1 ++ tr2) = (clicked tr1 ++ clicked tr2)%list.
Proof.
  induction tr1 as [|ev tr1 IH]; simpl; [reflexivity|].
  destruct ev; simpl; rewrite IH; reflexivity.
Qed.

Lemma waits_app (tr1 tr2 : Trace) :
  waits (tr1 ++ tr2) = (waits tr1 + waits tr2)%nat.
Proof.
  induction tr1 as [|ev tr1 IH]; simpl; [reflexivity|].
  destruct ev; simpl; rewrite IH; reflexivity.
Qed.

Lemma is_call_or_here_of_call (ev : event WebElement) :
  is_call ev = true -> is_call_or_here ev = true.
Proof. destruct ev; simpl; congruence. Qed.

Lemma no_attempt_in (evs : Trace) :
  forallb is_call_or_here evs = true -> hours_attempted evs = [].
Proof.
  induction evs as [|ev evs IH]; simpl; [reflexivity|].
  intro H. apply andb_prop in H as [Hev Hevs].
  destruct ev; simpl in *; try discriminate; auto.
Qed.

Lemma only_here_in (evs : Trace) (line : string) :
  forallb is_call_or_here evs = true -> In line (printed evs) -> line = "Here".
Proof.
  induction evs as [|ev evs IH]; simpl; [tauto|].
  intro H. apply andb_prop in H as [Hev Hevs].
  destruct ev; simpl in *; auto.
  intros [<-|Hin]; [|auto].
  apply String.eqb_eq. assumption.
Qed.

Lemma nothing_printed_in (evs : Trace) :
  forallb is_call evs = true -> printed evs = [].
Proof.
  induction evs as [|ev evs IH]; simpl; [reflexivity|].
  intro H. apply andb_prop in H as [Hev Hevs].
  destruct ev; simpl in *; try discriminate; auto.
Qed.

(** *** Method bodies built from the pieces of the model *)

Lemma emits_weaken (p q : event WebElement -> bool) {A : Type} (m : Body A) :
  (forall ev, p ev = true -> q ev = true) -> emits p m -> emits q m.
Proof.
  intros Hpq Hm h. destruct (Hm h) as (evs & Htr & Hp).
  exists evs. split; [assumption|].
  rewrite forallb_forall in *. auto.
Qed.

Lemma emits_ret (p : event WebElement -> bool) {A : Type} (a : A) :
  emits p (ret a : Body A).
Proof. intro h. exists []. split; [symmetry; apply app_nil_r | reflexivity]. Qed.

Lemma emits_raise (p : event WebElement -> bool) {A : Type} (e : exn) :
  emits p (raise e : Body A).
Proof. intro h. exists []. split; [symmetry; apply app_nil_r | reflexivity]. Qed.

Lemma emits_hang (p : event WebElement -> bool) {A : Type} :
  emits p ((fun h => (Hang, h)) : Body A).
Proof. intro h. exists []. split; [symmetry; apply app_nil_r | reflexivity]. Qed.

Lemma emits_self (p : event WebElement -> bool) {A : Type} (attr : State -> A) :
  emits p (self attr).
Proof. intro h. exists []. split; [symmetry; apply app_nil_r | reflexivity]. Qed.

Lemma emits_set_is_logged_in (p : event WebElement -> bool) (b : bool) :
  emits p (set_is_logged_in b : Body unit).
Proof. intro h. exists []. split; [symmetry; apply app_nil_r | reflexivity]. Qed.

Lemma emits_assert (p : event WebElement -> bool) (cond : bool) (msg : string) :
  emits p (assert_ cond msg : Body unit).
Proof. destruct cond; [apply emits_ret | apply emits_raise]. Qed.

Lemma emits_bind (p : event WebElement -> bool) {A B : Type} (m : Body A) (k : A -> Body B) :
  emits p m -> (forall a, emits p (k a)) -> emits p (bind m k).
Proof.
  intros Hm Hk h. unfold bind. destruct (Hm h) as (evs & Htr & Hp).
  destruct (m h) as [[a|e|] h1]; simpl in *; try (exists evs; split; assumption).
  destruct (Hk a h1) as (evs' & Htr' & Hp').
  exists (evs ++ evs')%list. split.
  - rewrite Htr', Htr, app_assoc. reflexivity.
  - rewrite forallb_app, Hp, Hp'. reflexivity.
Qed.

Lemma emits_try_except (p : event WebElement -> bool) {A : Type} (body : Body A)
    (catches : exn -> bool) (handler : exn -> Body A) :
  emits p body -> (forall e, emits p (handler e)) -> emits p (try_except body catches handler).
Proof.
  intros Hb Hh h. unfold try_except. destruct (Hb h) as (evs & Htr & Hp).
  destruct (body h) as [[a|e|] h1]; simpl in *; try (exists evs; split; assumption).
  destruct (catches e); [|exists evs; split; assumption].
  destruct (Hh e h1) as (evs' & Htr' & Hp').
  exists (evs ++ evs')%list. split.
  - rewrite Htr', Htr, app_assoc. reflexivity.
  - rewrite forallb_app, Hp, Hp'. reflexivity.
Qed.

Lemma emits_call (p : event WebElement -> bool) {A : Type} (ev : event WebElement)
    (op : Env -> outcome A * Env) :
  p ev = true -> emits p (call ev op).
Proof.
  intros Hev h. unfold call. destruct (op (driver h)) as [r d]. simpl.
  exists [ev]. split; [reflexivity|]. simpl. rewrite Hev. reflexivity.
Qed.

Lemma emits_print (p : event WebElement -> bool) (line : string) :
  p (EvPrint line) = true -> emits p (print line : Body unit).
Proof.
  intros Hev h. exists [EvPrint line]. split; [reflexivity|].
  simpl. rewrite Hev. reflexivity.
Qed.

Lemma comes_back_ret {A : Type} (a : A) : comes_back (ret a : Body A).
Proof. intro h; discriminate. Qed.

Lemma comes_back_raise {A : Type} (e : exn) : comes_back (raise e : Body A).
Proof. intro h; discriminate. Qed.

Lemma comes_back_bind {A B : Type} (m : Body A) (k : A -> Body B) :
  comes_back m -> (forall a, comes_back (k a)) -> comes_back (bind m k).
Proof.
  intros Hm Hk h. unfold bind. specialize (Hm h).
  destruct (m h) as [[a|e|] h1]; simpl in *; try discriminate.
  - apply Hk.
  - exfalso. apply Hm. reflexivity.
Qed.

Lemma comes_back_try_except {A : Type} (body : Body A) (catches : exn -> bool)
    (handler : exn -> Body A) :
  comes_back body -> (forall e, comes_back (handler e)) ->
  comes_back (try_except body catches handler).
Proof.
  intros Hb Hh h. unfold try_except. specialize (Hb h).
  destruct (body h) as [[a|e|] h1]; simpl in *; try assumption.
  destruct (catches e); simpl; [apply Hh | discriminate].
Qed.

Lemma comes_back_call {A : Type} (ev : event WebElement) (op : Env -> outcome A * Env) :
  comes_back (call ev op).
Proof.
  intro h. unfold call. destruct (op (driver h)) as [[a|e] d]; simpl; discriminate.
Qed.

Lemma comes_back_assert (cond : bool) (msg : string) :
  comes_back (assert_ cond msg : Body unit).
Proof. destruct cond; intro h; discriminate. Qed.

Create HintDb handler.

#[local] Hint Resolve emits_ret emits_raise emits_hang emits_self emits_set_is_logged_in
  emits_assert emits_bind emits_try_except comes_back_ret comes_back_raise
  comes_back_bind comes_back_try_except comes_back_call comes_back_assert : handler.

#[local] Hint Extern 1 (emits _ (call _ _)) => (apply emits_call; reflexivity) : handler.
#[local] Hint Extern 1 (emits _ (print _)) => (apply emits_print; reflexivity) : handler.

(** Unfolds the calls on the world down to [call]. *)
Ltac to_calls :=
  unfold get, find_element, find_elements, text, click, send_keys, until_present, now, sleep.

Lemma check_element_emits (p : event WebElement -> bool) (loc : locator) (msg : string)
    (wait : Z) :
  p (EvWaitPresent loc wait) = true -> emits p (_check_element loc msg wait).
Proof.
  intro Hp. unfold _check_element; to_calls.
  apply emits_try_except.
  - apply emits_bind; [auto with handler|]. intros _. apply emits_call. assumption.
  - intro e. destruct (String.eqb (strip msg) ""); auto with handler.
Qed.

Lemma check_element_comes_back (loc : locator) (msg : string) (wait : Z) :
  comes_back (_check_element loc msg wait).
Proof.
  unfold _check_element; to_calls.
  apply comes_back_try_except; [auto with handler|].
  intro e. destruct (String.eqb (strip msg) ""); auto with handler.
Qed.

#[local] Hint Resolve check_element_comes_back : handler.

#[local] Hint Extern 1 (emits _ (_check_element _ _ _)) =>
  (apply check_element_emits; reflexivity) : handler.
#[local] Hint Extern 1 (emits _ _check_load_okay) =>
  (apply check_element_emits; reflexivity) : handler.

(** *** What the methods add to the trace *)

Lemma login_emits : emits is_call (_login : Body unit).
Proof.
  unfold _login; to_calls.
  apply emits_bind; [auto with handler|].
  intros [|]; auto 20 with handler.
Qed.

Lemma wait_loop_emits (fuel : nat) (now_ opening : Timestamp) :
  emits is_call (wait_loop fuel now_ opening : Body unit).
Proof.
  revert now_. induction fuel as [|fuel IH]; intro now_; simpl;
    destruct (now_ <? opening); to_calls; auto 10 with handler.
Qed.

Lemma wait_emits (fuel : nat) (hour minute second : Z) :
  emits is_call (_wait fuel hour minute second : Body unit).
Proof.
  unfold _wait; to_calls.
  apply emits_bind; [auto with handler|].
  intro now_. destruct (opening_time hour minute second now_); auto with handler.
  apply wait_loop_emits.
Qed.

Lemma go_to_cms_page_and_wait_emits (fuel : nat) (hour minute second : Z) :
  emits is_call (_go_to_cms_page_and_wait fuel hour minute second : Body unit).
Proof.
  unfold _go_to_cms_page_and_wait; to_calls.
  pose proof (wait_emits fuel hour minute second).
  auto 10 with handler.
Qed.

Lemma select_date_emits (es : list WebElement) (date : Date) (date_text : string) :
  emits is_call (select_date es date date_text).
Proof.
  induction es as [|e es IH]; simpl; to_calls; [auto with handler|].
  apply emits_bind; [auto with handler|].
  intro t. destruct (String.eqb t date_text); auto 10 with handler.
Qed.

Lemma shows_wanted_court_emits (indoors : bool) (e : WebElement) :
  emits is_call (shows_wanted_court indoors e).
Proof.
  unfold shows_wanted_court; to_calls.
  apply emits_bind; [destruct indoors; auto 10 with handler|].
  intros [|]; [auto with handler|].
  destruct (negb indoors); auto 10 with handler.
Qed.

Lemma pick_court_emits (options : list WebElement) (indoors : bool) :
  emits is_call (pick_court options indoors).
Proof.
  induction options as [|ee options IH]; simpl; to_calls; [auto with handler|].
  apply emits_bind; [apply shows_wanted_court_emits|].
  intros [|]; auto 10 with handler.
Qed.

Lemma pick_duration_emits (options : list WebElement) (duration_text : string) :
  emits is_call_or_here (pick_duration options duration_text).
Proof.
  induction options as [|ee options IH]; simpl; to_calls; [auto with handler|].
  apply emits_bind; [auto with handler|].
  intro t. destruct (String.eqb t duration_text); auto 10 with handler.
Qed.

Lemma set_dropdown_emits (e : WebElement) (indoors : bool) (duration : Z) :
  emits is_call_or_here (set_dropdown e indoors duration).
Proof.
  unfold set_dropdown; to_calls.
  pose proof shows_wanted_court_emits as Hcourt.
  pose proof pick_court_emits as Hpick.
  pose proof pick_duration_emits as Hduration.
  apply emits_bind; [auto with handler|].
  intro label. destruct (is_court_label label).
  - apply emits_bind;
      [apply (emits_weaken is_call); [apply is_call_or_here_of_call | apply Hcourt]|].
    intros [|]; [auto with handler|].
    repeat (apply emits_bind; [auto with handler | intro]).
    apply (emits_weaken is_call); [apply is_call_or_here_of_call | apply Hpick].
  - destruct (is_duration_label label); [|auto with handler].
    apply emits_bind; [auto with handler|].
    intro shown. destruct (String.eqb shown (duration_text duration)); auto 10 with handler.
Qed.

Lemma set_dropdowns_emits (es : list WebElement) (indoors : bool) (duration : Z) :
  emits is_call_or_here (set_dropdowns es indoors duration).
Proof.
  induction es as [|e es IH]; simpl; [auto with handler|].
  apply emits_bind; [apply set_dropdown_emits | intros _; apply IH].
Qed.

Lemma set_options_emits (date : Date) (indoors : bool) (duration : Z) :
  emits is_call_or_here (_set_options date indoors duration : Body unit).
Proof.
  unfold _set_options; to_calls.
  apply emits_bind; [auto with handler|]. intro dates.
  apply emits_bind;
    [apply (emits_weaken is_call); [apply is_call_or_here_of_call | apply select_date_emits]|].
  intros _. apply emits_bind; [auto with handler|]. intro dropdowns.
  apply set_dropdowns_emits.
Qed.

(** [prepare] enters [_reserve_time] for no hour and prints at most the
    line ["Here"]. *)
Lemma prepare_emits (fuel : nat) (date : Date) (indoor : bool) (duration : Z) :
  emits is_call_or_here (prepare fuel date indoor duration : Body unit).
Proof.
  unfold prepare.
  apply emits_bind; [auto with handler|]. intros _.
  apply emits_bind;
    [apply (emits_weaken is_call); [apply is_call_or_here_of_call | apply login_emits]|].
  intros _. apply emits_bind;
    [apply (emits_weaken is_call);
     [apply is_call_or_here_of_call | apply go_to_cms_page_and_wait_emits]|].
  intros _. apply set_options_emits.
Qed.

Lemma book_steps_emits (e : WebElement) : emits is_call (book_steps e).
Proof. unfold book_steps; to_calls; auto 20 with handler. Qed.

Lemma book_steps_comes_back (e : WebElement) : comes_back (book_steps e).
Proof. unfold book_steps; to_calls; auto 20 with handler. Qed.

Lemma book_emits (e : WebElement) : emits is_call (book e).
Proof. unfold book. pose proof (book_steps_emits e). auto with handler. Qed.

(** One round of the loop over the elements always ends without raising. *)
Lemma book_returns (e : WebElement) (h : State) :
  exists b h', book e h = (Ok b, h').
Proof.
  unfold book, try_except.
  pose proof (book_steps_comes_back e h) as Hback.
  destruct (book_steps e h) as [[b|x|] h1]; simpl in *.
  - exists b, h1; reflexivity.
  - exists false, h1; reflexivity.
  - exfalso; apply Hback; reflexivity.
Qed.

Lemma book_first_emits (elements : list WebElement) : emits is_call (book_first elements).
Proof.
  induction elements as [|e elements IH]; simpl; [auto with handler|].
  apply emits_bind; [apply book_emits|].
  intros [|]; auto with handler.
Qed.

Lemma book_first_returns (elements : list WebElement) (h : State) :
  exists b h', book_first elements h = (Ok b, h').
Proof.
  revert h. induction elements as [|e elements IH]; intro h; simpl.
  - exists false, h; reflexivity.
  - unfold bind. destruct (book_returns e h) as (b & h1 & Hb). rewrite Hb.
    destruct b; [exists true, h1; reflexivity | apply IH].
Qed.

Lemma with_text_emits (es : list WebElement) (txt : string) :
  emits is_call (with_text es txt).
Proof.
  induction es as [|e es IH]; simpl; to_calls; auto 10 with handler.
Qed.

(** [_reserve_time time] records its entry for [time]; all it does after
    that is calls on the world. *)
Lemma reserve_time_emits (time : Z) (h : State) :
  exists evs,
    trace (snd (_reserve_time time h)) = (trace h ++ EvReserveTime time :: evs)%list
    /\ forallb is_call evs = true.
Proof.
  unfold _reserve_time.
  set (rest := fun _ : unit => bind (find_elements _ _) _).
  assert (Hq : emits is_call (rest tt)).
  { subst rest. to_calls. apply emits_bind; [auto with handler|].
    intro found. apply emits_bind; [apply with_text_emits|].
    intro elements. apply book_first_emits. }
  unfold bind at 1. unfold enter_reserve_time at 1.
  destruct (Hq (mkHandler (driver h) (_username h) (_password h) (_is_logged_in h)
                          (trace h ++ [EvReserveTime time]))) as (evs & Htr & Hp).
  exists evs. split; [|assumption].
  rewrite Htr. simpl. rewrite <- app_assoc. reflexivity.
Qed.

Lemma reserve_time_attempts (time : Z) (h : State) :
  hours_attempted (trace (snd (_reserve_time time h)))
  = (hours_attempted (trace h) ++ [time])%list.
Proof.
  destruct (reserve_time_emits time h) as (evs & Htr & Hp).
  rewrite Htr, hours_attempted_app. simpl.
  rewrite (no_attempt_in evs); [reflexivity|].
  rewrite forallb_forall in *. intros ev Hev. apply is_call_or_here_of_call. auto.
Qed.


(** *** One round of the loop over the candidate hours *)

Lemma reserve_round_booked (t : Z) (failures : list Z) (h h1 : State) :
  _reserve_time t h = (Ok true, h1) ->
  reserve_round t failures h = (Ok Returned, snd (print success_message h1)).
Proof.
  intro H. unfold reserve_round, try_except, bind. rewrite H. reflexivity.
Qed.

Lemma reserve_round_not_booked (t : Z) (failures : list Z) (h h1 : State) :
  _reserve_time t h = (Ok false, h1) ->
  reserve_round t failures h = (Ok (Continue failures), h1).
Proof.
  intro H. unfold reserve_round, try_except, bind. rewrite H. reflexivity.
Qed.

Lemma reserve_round_raised (t : Z) (failures : list Z) (h h1 : State) (x : exn) :
  _reserve_time t h = (Raise x, h1) ->
  reserve_round t failures h
  = if is_Exception x then (Ok (Continue (failures ++ [t])%list), h1) else (Raise x, h1).
Proof.
  intro H. unfold reserve_round, try_except, bind. rewrite H.
  destruct (is_Exception x); reflexivity.
Qed.

Lemma reserve_round_attempts (t : Z) (failures : list Z) (h : State) :
  hours_attempted (trace (snd (reserve_round t failures h)))
  = (hours_attempted (trace h) ++ [t])%list.
Proof.
  pose proof (reserve_time_attempts t h) as Ht.
  unfold reserve_round, try_except, bind.
  destruct (_reserve_time t h) as [[[|]|x|] h1]; simpl in *; try assumption.
  - rewrite hours_attempted_app, Ht. simpl. apply app_nil_r.
  - destruct (is_Exception x); simpl; assumption.
Qed.

(** What only an exception outside [Exception] can do: leave a round by
    raising. *)
Lemma reserve_round_raises_only_base (t : Z) (failures : list Z) (h h' : State) (x : exn) :
  reserve_round t failures h = (Raise x, h') -> is_Exception x = false.
Proof.
  unfold reserve_round, try_except, bind.
  destruct (_reserve_time t h) as [[[|]|y|] h1]; simpl; try discriminate.
  destruct (is_Exception y) eqn:Hy; simpl; [discriminate|].
  intro H. injection H as -> _. assumption.
Qed.

(** *** The loop over the candidate hours *)

Lemma reserve_times_app (pre post failures : list Z) (h : State) :
  reserve_times (pre ++ post) failures h
  = match reserve_times pre failures h with
    | (Ok (Continue failures1), h1) => reserve_times post failures1 h1
    | other => other
    end.
Proof.
  revert failures h. induction pre as [|t pre IH]; intros failures h; simpl.
  - reflexivity.
  - unfold bind. destruct (reserve_round t failures h) as [[[|failures1]|x|] h1];
      try reflexivity.
    apply IH.
Qed.

Lemma reserve_times_prefix (times failures : list Z) (h : State) :
  exists n, (n <= length times)%nat /\
    hours_attempted (trace (snd (reserve_times times failures h)))
    = (hours_attempted (trace h) ++ firstn n times)%list.
Proof.
  revert failures h. induction times as [|t times IH]; intros failures h; simpl.
  - exists O. split; [lia|]. simpl. symmetry. apply app_nil_r.
  - pose proof (reserve_round_attempts t failures h) as Ht. unfold bind.
    destruct (reserve_round t failures h) as [[[|failures1]|x|] h1]; simpl in *.
    2:{ destruct (IH failures1 h1) as (n & Hn & Heq).
        exists (S n). split; [lia|]. rewrite Heq, Ht, <- app_assoc. reflexivity. }
    all: exists 1%nat; split; [lia|]; rewrite Ht; reflexivity.
Qed.

Lemma reserve_times_through (pre failures failures1 : list Z) (h h1 : State) :
  reserve_times pre failures h = (Ok (Continue failures1), h1) ->
  hours_attempted (trace h1) = (hours_attempted (trace h) ++ pre)%list.
Proof.
  revert failures h. induction pre as [|t pre IH]; intros failures h; simpl.
  - intro H. injection H as _ <-. symmetry. apply app_nil_r.
  - pose proof (reserve_round_attempts t failures h) as Ht. unfold bind.
    destruct (reserve_round t failures h) as [[[|failures2]|x|] h2]; simpl in *;
      try discriminate.
    intro H. rewrite (IH _ _ H), Ht, <- app_assoc. reflexivity.
Qed.

Lemma reserve_times_raises_only_base (times failures : list Z) (h h' : State) (x : exn) :
  reserve_times times failures h = (Raise x, h') -> is_Exception x = false.
Proof.
  revert failures h. induction times as [|t times IH]; intros failures h; simpl.
  - discriminate.
  - unfold bind.
    destruct (reserve_round t failures h) as [[[|failures1]|y|] h1] eqn:Hr;
      try discriminate.
    + apply IH.
    + intro H. injection H as <- _. apply (reserve_round_raises_only_base _ _ _ _ _ Hr).
Qed.

(** The report after the loop adds no attempt. *)
Lemma reserve_and_report_attempts (times : list Z) (h : State) :
  hours_attempted (trace (snd (reserve_and_report times h)))
  = hours_attempted (trace (snd (reserve_times times [] h))).
Proof.
  unfold reserve_and_report, bind.
  destruct (reserve_times times [] h) as [[[|failures]|x|] h1]; simpl; try reflexivity.
  destruct (Z.of_nat (length failures) >? 0); simpl; [|reflexivity].
  rewrite hours_attempted_app. apply app_nil_r.
Qed.


(** *** The opening time *)

(** The time of day of a timestamp, field by field. *)
Lemma time_of_day_fields (now : Timestamp) :
  now mod ns_per_day
  = ts_hour now * ns_per_hour + ts_minute now * ns_per_minute
    + ts_second now * ns_per_second + now mod ns_per_second
  /\ 0 <= now mod ns_per_second < ns_per_second
  /\ ts_microsecond now = now mod ns_per_second / ns_per_us.
Proof.
  unfold ts_hour, ts_minute, ts_second, ts_microsecond,
    ns_per_day, ns_per_hour, ns_per_minute, ns_per_second, ns_per_us.
  Z.div_mod_to_equations. lia.
Qed.

Lemma in_range (lo hi z : Z) : lo <= z <= hi -> (lo <=? z) && (z <=? hi) = true.
Proof. intro H. apply andb_true_intro. split; apply Z.leb_le; lia. Qed.

(** A target that the time of day has not passed yet gives the opening
    time of the same day. *)
Lemma opening_time_not_passed_is_today (hour minute second : Z) (now : Timestamp) :
  0 <= hour <= 23 -> 0 <= minute <= 59 -> 0 <= second <= 59 ->
  now mod ns_per_day <= hour * ns_per_hour + minute * ns_per_minute + second * ns_per_second ->
  opening_time hour minute second now
  = Ok (floor_d now + hour * ns_per_hour + minute * ns_per_minute + second * ns_per_second).
Proof.
  intros Hh Hm Hs Hlater.
  destruct (time_of_day_fields now) as (Hfields & Hsub & Hus).
  unfold opening_time.
  assert (Hcond : (ts_hour now >=? hour) && (ts_minute now >=? minute)
                  && (ts_second now >=? second) && (ts_microsecond now >? 0) = false).
  { apply not_true_is_false. intro Hc.
    repeat (apply andb_prop in Hc as [Hc ?]).
    rewrite Z.geb_le in *. rewrite Z.gtb_lt in *.
    assert (0 < now mod ns_per_second).
    { rewrite Hus in *. unfold ns_per_us in *.
      destruct (Z.eq_dec (now mod ns_per_second) 0) as [E|E];
        [rewrite E in *; discriminate | lia]. }
    unfold ns_per_day, ns_per_hour, ns_per_minute, ns_per_second in *. nia. }
  rewrite Hcond. unfold replace_hms.
  rewrite (in_range 0 23 hour Hh), (in_range 0 59 minute Hm), (in_range 0 59 second Hs).
  simpl. f_equal.
  unfold floor_d, ns_per_day, ns_per_hour, ns_per_minute, ns_per_second.
  Z.div_mod_to_equations. lia.
Qed.

(** *** The claims on the handler *)

(** C4.  The label of [_reserve_time] for the hours 1 to 23: ["h:00 AM"]
    for 1 <= h <= 11, ["12:00 PM"] for 12 and ["(h-12):00 PM"] for
    13 <= h <= 23; in particular 1, 12, 13 and 23 give ["1:00 AM"],
    ["12:00 PM"], ["1:00 PM"] and ["11:00 PM"].  The last part spells the
    labels of all 23 hours out. *)
Theorem time_text_labels (h : Z) :
  (1 <= h <= 11 -> time_text h = str h ++ ":00 AM")
  /\ (h = 12 -> time_text h = "12:00 PM")
  /\ (13 <= h <= 23 -> time_text h = str (h - 12) ++ ":00 PM")
  /\ time_text 1 = "1:00 AM"
  /\ time_text 12 = "12:00 PM"
  /\ time_text 13 = "1:00 PM"
  /\ time_text 23 = "11:00 PM"
  /\ map time_text [1; 2; 3; 4; 5; 6; 7; 8; 9; 10; 11; 12;
                    13; 14; 15; 16; 17; 18; 19; 20; 21; 22; 23]
     = ["1:00 AM"; "2:00 AM"; "3:00 AM"; "4:00 AM"; "5:00 AM"; "6:00 AM";
        "7:00 AM"; "8:00 AM"; "9:00 AM"; "10:00 AM"; "11:00 AM"; "12:00 PM";
        "1:00 PM"; "2:00 PM"; "3:00 PM"; "4:00 PM"; "5:00 PM"; "6:00 PM";
        "7:00 PM"; "8:00 PM"; "9:00 PM"; "10:00 PM"; "11:00 PM"].
Proof.
  repeat split; try reflexivity.
  - intros Hh. unfold time_text.
    destruct (Z.ltb_spec h 12) as [_|Hge]; [reflexivity | lia].
  - intros ->. reflexivity.
  - intros Hh. unfold time_text.
    destruct (Z.ltb_spec h 12) as [Hlt|_]; [lia|].
    destruct (Z.eqb_spec h 12) as [Heq|_]; [lia|].
    replace (h mod 12) with (h - 12); [reflexivity|].
    apply Z.mod_unique with (q := 1); lia.
Qed.

(** C10.  For hour 0 the label of [_reserve_time] is ["0:00 AM"], by the
    branch [time < 12]; the slots tried for midnight are those of the
    table whose text is ["0:00 AM"]. *)
Theorem reserve_time_midnight_label :
  time_text 0 = "0:00 AM"
  /\ (0 <? 12) = true
  /\ forall h : State,
       _reserve_time 0 h
       = bind (enter_reserve_time 0)
           (fun _ => bind (find_elements CSS_SELECTOR "div.start-time.ng-binding.ng-scope")
                       (fun found => bind (with_text found "0:00 AM") book_first)) h.
Proof.
  repeat split.
Qed.

(** C9.  With [_is_logged_in] set, [_login] returns at once: no page is
    loaded, nothing is typed or clicked, and the handler and the world
    are as before. *)
Theorem login_when_logged_in (h : State) :
  _is_logged_in h = true -> _login h = (Ok tt, h).
Proof.
  intro Hin. unfold _login, bind, self. rewrite Hin. reflexivity.
Qed.

(** C7.  With no candidate hour, once the filters are set
    [make_reservations] ends with the handler and the world exactly as
    the filter selection left them.  So [_reserve_time] is entered for no
    hour, and nothing is printed but the line ["Here"] of [_set_options]:
    neither the success message nor a failure list. *)
Theorem make_reservations_no_times (fuel : nat) (date : Date) (indoor : bool)
    (duration : Z) (h h1 : State) :
  prepare fuel date indoor duration h = (Ok tt, h1) ->
  make_reservations fuel date indoor duration [] h = (Ok tt, h1)
  /\ hours_attempted (trace h1) = hours_attempted (trace h)
  /\ exists lines,
       printed (trace h1) = (printed (trace h) ++ lines)%list
       /\ forall line, In line lines -> line = "Here".
Proof.
  intro Hprep.
  destruct (prepare_emits fuel date indoor duration h) as (evs & Htr & Hp).
  rewrite Hprep in Htr. simpl in Htr.
  split; [|split].
  - unfold make_reservations, bind. rewrite Hprep. reflexivity.
  - rewrite Htr, hours_attempted_app, (no_attempt_in evs Hp). apply app_nil_r.
  - exists (printed evs). split.
    + rewrite Htr. apply printed_app.
    + intros line Hin. apply (only_here_in evs line Hp Hin).
Qed.

(** C8.  A dropdown that already shows the wanted court type, or the
    wanted duration, is left alone by [_set_options]: its text is read
    twice and nothing else happens, so it is not clicked and no wait for
    the table to load is made. *)
Theorem set_dropdown_already_chosen (e : WebElement) (indoors : bool) (duration : Z)
    (h : State) (shown : string) (d1 d2 : Env) :
  element_text e (driver h) = (Returns shown, d1) ->
  element_text e d1 = (Returns shown, d2) ->
  shown = (if indoors then indoor_label else outdoor_label)
  \/ ((duration = 1 \/ duration = 2) /\ shown = duration_text duration) ->
  let h' := mkHandler d2 (_username h) (_password h) (_is_logged_in h)
                      (trace h ++ [EvText e; EvText e]) in
  set_dropdown e indoors duration h = (Ok tt, h')
  /\ clicked (trace h') = clicked (trace h)
  /\ waits (trace h') = waits (trace h)
  /\ printed (trace h') = printed (trace h).
Proof.
  intros H1 H2 Hshown h'. subst h'. simpl trace.
  rewrite clicked_app, waits_app, printed_app. simpl.
  rewrite !app_nil_r, Nat.add_0_r.
  split; [|auto].
  unfold set_dropdown, bind, text, call at 1. rewrite H1.
  destruct Hshown as [Hcourt | [Hd Hdur]].
  - assert (Hlabel : is_court_label shown = true) by (subst shown; destruct indoors; reflexivity).
    rewrite Hlabel. unfold shows_wanted_court, bind, text, call. simpl.
    destruct indoors; simpl; rewrite H2; subst shown; simpl; rewrite <- app_assoc; reflexivity.
  - assert (Hlabel : is_court_label shown = false)
      by (subst shown; destruct Hd; subst duration; reflexivity).
    assert (Hlabel' : is_duration_label shown = true)
      by (subst shown; destruct Hd; subst duration; reflexivity).
    rewrite Hlabel, Hlabel'. unfold call. simpl. rewrite H2.
    rewrite Hdur, String.eqb_refl. simpl. rewrite <- app_assoc. reflexivity.
Qed.


(** [prepare] enters [_reserve_time] for no hour. *)
Lemma prepare_attempts (fuel : nat) (date : Date) (indoor : bool) (duration : Z) (h : State) :
  hours_attempted (trace (snd (prepare fuel date indoor duration h)))
  = hours_attempted (trace h).
Proof.
  destruct (prepare_emits fuel date indoor duration h) as (evs & Htr & Hp).
  rewrite Htr, hours_attempted_app, (no_attempt_in evs Hp). apply app_nil_r.
Qed.

(** C5.  The hours are attempted in the order of the list and the run
    stops at the first one booked.  First part: whatever the site does,
    the hours [_reserve_time] is entered for during [make_reservations]
    are a prefix of [times], in that order.  Second part: when the
    filters are set, the hours of [pre] have been gone through without a
    booking and the attempt for [t] returns [True], the method prints the
    success message and returns there; the hours attempted are those of
    [pre] and [t], none of [post]. *)
Theorem reserve_times_in_order_until_booked :
  (forall (fuel : nat) (date : Date) (indoor : bool) (duration : Z)
          (times : list Z) (h0 : State),
      exists n, (n <= length times)%nat /\
        hours_attempted (trace (snd (make_reservations fuel date indoor duration times h0)))
        = (hours_attempted (trace h0) ++ firstn n times)%list)
  /\ (forall (fuel : nat) (date : Date) (indoor : bool) (duration : Z)
             (pre post failures1 : list Z) (t : Z) (h0 h h1 h2 : State),
         prepare fuel date indoor duration h0 = (Ok tt, h) ->
         reserve_times pre [] h = (Ok (Continue failures1), h1) ->
         _reserve_time t h1 = (Ok true, h2) ->
         let h3 := snd (print success_message h2) in
         make_reservations fuel date indoor duration (pre ++ t :: post) h0 = (Ok tt, h3)
         /\ hours_attempted (trace h3) = (hours_attempted (trace h0) ++ pre ++ [t])%list).
Proof.
  split.
  - intros fuel date indoor duration times h0.
    pose proof (prepare_attempts fuel date indoor duration h0) as Hprep.
    unfold make_reservations, bind.
    destruct (prepare fuel date indoor duration h0) as [[[]|x|] h] eqn:Hp; simpl in *.
    + rewrite reserve_and_report_attempts, <- Hprep. apply reserve_times_prefix.
    + exists O. split; [lia|]. rewrite Hprep. simpl. symmetry. apply app_nil_r.
    + exists O. split; [lia|]. rewrite Hprep. simpl. symmetry. apply app_nil_r.
  - intros fuel date indoor duration pre post failures1 t h0 h h1 h2 Hprep Hpre Ht h3.
    pose proof (prepare_attempts fuel date indoor duration h0) as Hquiet.
    rewrite Hprep in Hquiet. simpl in Hquiet.
    split.
    + unfold make_reservations, bind. rewrite Hprep.
      unfold reserve_and_report, bind. rewrite reserve_times_app, Hpre.
      simpl. unfold bind. rewrite (reserve_round_booked t failures1 h1 h2 Ht).
      reflexivity.
    + subst h3. simpl. rewrite hours_attempted_app. simpl. rewrite app_nil_r.
      pose proof (reserve_time_attempts t h1) as Hatt. rewrite Ht in Hatt. simpl in Hatt.
      rewrite Hatt, (reserve_times_through _ _ _ _ _ Hpre), Hquiet, <- app_assoc.
      reflexivity.
Qed.

(** While the loop goes on it has printed nothing. *)
Lemma reserve_times_prints_nothing_yet (pre failures failures1 : list Z) (h h1 : State) :
  reserve_times pre failures h = (Ok (Continue failures1), h1) ->
  printed (trace h1) = printed (trace h).
Proof.
  revert failures h. induction pre as [|t pre IH]; intros failures h; simpl.
  - intro H. injection H as _ <-. reflexivity.
  - destruct (reserve_time_emits t h) as (evs & Htr & Hevs).
    unfold bind, reserve_round, try_except, bind.
    destruct (_reserve_time t h) as [[[|]|y|] h2]; simpl in *; try discriminate.
    + intro H. rewrite (IH _ _ H), Htr, printed_app. simpl.
      rewrite (nothing_printed_in evs Hevs). apply app_nil_r.
    + destruct (is_Exception y); simpl; [|discriminate].
      intro H. rewrite (IH _ _ H), Htr, printed_app. simpl.
      rewrite (nothing_printed_in evs Hevs). apply app_nil_r.
Qed.

(** C6, as amended.  In the loop over the slot elements of one hour, an
    exception of any kind raised in the [try] block of an element is
    swallowed and the next element is tried, and the loop itself always
    ends by returning.  An exception that is an instance of [Exception]
    raised by the attempt for an hour is caught: the hour is recorded as
    failed and the loop goes on with the next hour.  So the run after the
    filters can only be ended by an exception outside [Exception].  And
    such an exception does end it: one raised by the lookup of the slot
    elements leaves [_reserve_time] as it is, and one that leaves the
    attempt for an hour, after hours gone through without a booking,
    leaves the run as it is, with no later hour attempted and nothing
    printed. *)
Theorem slot_errors_are_not_fatal :
  (forall (e : WebElement) (rest : list WebElement) (h h1 : State) (x : exn),
      book_steps e h = (Raise x, h1) ->
      book_first (e :: rest) h = book_first rest h1)
  /\ (forall (elements : list WebElement) (h : State),
         exists b h', book_first elements h = (Ok b, h'))
  /\ (forall (t : Z) (times failures : list Z) (h h1 : State) (x : exn),
         _reserve_time t h = (Raise x, h1) ->
         is_Exception x = true ->
         reserve_times (t :: times) failures h
         = reserve_times times (failures ++ [t])%list h1)
  /\ (forall (times : list Z) (h h' : State) (x : exn),
         reserve_and_report times h = (Raise x, h') -> is_Exception x = false)
  /\ (forall (t : Z) (h : State) (x : exn) (d : Env),
         driver_find_elements CSS_SELECTOR "div.start-time.ng-binding.ng-scope" (driver h)
         = (Raises x, d) ->
         _reserve_time t h
         = (Raise x,
            moved h d [EvReserveTime t;
                       EvFindElements CSS_SELECTOR "div.start-time.ng-binding.ng-scope"]))
  /\ (forall (pre post failures1 : list Z) (t : Z) (h h1 h2 : State) (x : exn),
         reserve_times pre [] h = (Ok (Continue failures1), h1) ->
         _reserve_time t h1 = (Raise x, h2) ->
         is_Exception x = false ->
         reserve_and_report (pre ++ t :: post) h = (Raise x, h2)
         /\ hours_attempted (trace h2) = (hours_attempted (trace h) ++ pre ++ [t])%list
         /\ printed (trace h2) = printed (trace h)).
Proof.
  split; [|split; [|split; [|split; [|split]]]].
  - intros e rest h h1 x Hsteps. simpl. unfold bind, book, try_except.
    rewrite Hsteps. reflexivity.
  - apply book_first_returns.
  - intros t times failures h h1 x Ht Hx. simpl. unfold bind.
    rewrite (reserve_round_raised t failures h h1 x Ht), Hx. reflexivity.
  - intros times h h' x. unfold reserve_and_report, bind.
    destruct (reserve_times times [] h) as [[[|failures]|y|] h1] eqn:Hloop; simpl;
      try discriminate.
    + destruct (Z.of_nat (length failures) >? 0); discriminate.
    + intro H. injection H as <- _. apply (reserve_times_raises_only_base _ _ _ _ _ Hloop).
  - intros t h x d Hfind.
    unfold _reserve_time, bind, enter_reserve_time, find_elements, call. simpl.
    rewrite Hfind. unfold moved. rewrite <- app_assoc. reflexivity.
  - intros pre post failures1 t h h1 h2 x Hpre Ht Hx.
    assert (Hloop : reserve_times (pre ++ t :: post) [] h = (Raise x, h2)).
    { rewrite reserve_times_app, Hpre. simpl. unfold bind.
      rewrite (reserve_round_raised t failures1 h1 h2 x Ht), Hx. reflexivity. }
    split; [|split].
    + unfold reserve_and_report, bind. rewrite Hloop. reflexivity.
    + pose proof (reserve_time_attempts t h1) as Hatt. rewrite Ht in Hatt. simpl in Hatt.
      rewrite Hatt, (reserve_times_through _ _ _ _ _ Hpre), <- app_assoc. reflexivity.
    + pose proof (reserve_times_prints_nothing_yet pre [] failures1 h h1 Hpre) as Hp1.
      destruct (reserve_time_emits t h1) as (evs & Htr & Hevs).
      rewrite Ht in Htr. simpl in Htr.
      rewrite Htr, printed_app. simpl.
      rewrite (nothing_printed_in evs Hevs), app_nil_r. exact Hp1.
Qed.

End Properties.

(** ** More on the handler *)

(** *** Hour labels and the opening time *)

Lemma hour_of_day_cases (h : Z) : 0 <= h <= 23 -> In h hours_of_day.
Proof.
  intro Hh. unfold hours_of_day.
  assert (Hc : h = 0 \/ h = 1 \/ h = 2 \/ h = 3 \/ h = 4 \/ h = 5 \/ h = 6 \/ h = 7
               \/ h = 8 \/ h = 9 \/ h = 10 \/ h = 11 \/ h = 12 \/ h = 13 \/ h = 14
               \/ h = 15 \/ h = 16 \/ h = 17 \/ h = 18 \/ h = 19 \/ h = 20 \/ h = 21
               \/ h = 22 \/ h = 23) by lia.
  repeat (destruct Hc as [->|Hc]; [simpl; tauto|]).
  subst h. simpl. tauto.
Qed.

Lemma labels_differ_on_the_day :
  forallb (fun a => forallb (fun b => implb (String.eqb (time_text a) (time_text b)) (a =? b))
                      hours_of_day) hours_of_day = true.
Proof. vm_compute. reflexivity. Qed.

(** Two hours of the day with the same label in [_reserve_time] are the
    same hour: no slot text stands for two hours of a request. *)
Theorem time_text_injective_on_the_day (a b : Z) :
  0 <= a <= 23 -> 0 <= b <= 23 -> time_text a = time_text b -> a = b.
Proof.
  intros Ha Hb Heq.
  pose proof labels_differ_on_the_day as Hall.
  rewrite forallb_forall in Hall.
  specialize (Hall a (hour_of_day_cases a Ha)).
  rewrite forallb_forall in Hall.
  specialize (Hall b (hour_of_day_cases b Hb)).
  rewrite Heq, String.eqb_refl in Hall. simpl in Hall.
  apply Z.eqb_eq. assumption.
Qed.

(** An hour past 12 and the hour twelve later get the same label: hours
    of 24 and more are not refused, they stand for an afternoon slot. *)
Theorem time_text_wraps_after_noon (h : Z) :
  13 <= h -> time_text (h + 12) = time_text h.
Proof.
  intro Hh. unfold time_text.
  destruct (Z.ltb_spec (h + 12) 12); [lia|].
  destruct (Z.eqb_spec (h + 12) 12); [lia|].
  destruct (Z.ltb_spec h 12); [lia|].
  destruct (Z.eqb_spec h 12); [lia|].
  replace (h + 12) with (h + 1 * 12) by lia.
  rewrite Z.mod_add by lia. reflexivity.
Qed.

(** With fields in their ranges the opening time is the target time of
    day on the day of [now] or on the next; with a field out of its range
    [_wait] ends in a [ValueError]. *)
Theorem opening_time_same_or_next_day (hour minute second : Z) (now : Timestamp) :
  (0 <= hour <= 23 /\ 0 <= minute <= 59 /\ 0 <= second <= 59 ->
   exists k, (k = 0 \/ k = 1) /\
     opening_time hour minute second now
     = Ok (floor_d now + k * ns_per_day
           + hour * ns_per_hour + minute * ns_per_minute + second * ns_per_second))
  /\ (~ (0 <= hour <= 23 /\ 0 <= minute <= 59 /\ 0 <= second <= 59) ->
      exists msg, opening_time hour minute second now = Raise (ValueError msg)).
Proof.
  split.
  - intros (Hh & Hm & Hs). unfold opening_time.
    destruct ((ts_hour now >=? hour) && (ts_minute now >=? minute)
              && (ts_second now >=? second) && (ts_microsecond now >? 0));
      [exists 1 | exists 0]; (split; [lia|]);
      unfold replace_hms;
      rewrite (in_range 0 23 hour Hh), (in_range 0 59 minute Hm), (in_range 0 59 second Hs);
      simpl; f_equal;
      unfold add_days, floor_d, ns_per_day, ns_per_hour, ns_per_minute, ns_per_second;
      Z.div_mod_to_equations; lia.
  - intro Hbad. unfold opening_time.
    assert (Hreplace : forall ts, exists msg,
               replace_hms ts hour minute second = Raise (ValueError msg)).
    { intro ts. unfold replace_hms.
      destruct ((0 <=? hour) && (hour <=? 23)) eqn:Eh; simpl; [|eexists; reflexivity].
      destruct ((0 <=? minute) && (minute <=? 59)) eqn:Em; simpl; [|eexists; reflexivity].
      destruct ((0 <=? second) && (second <=? 59)) eqn:Es; simpl; [|eexists; reflexivity].
      exfalso. apply Hbad.
      apply andb_prop in Eh as [? ?]. apply andb_prop in Em as [? ?].
      apply andb_prop in Es as [? ?].
      rewrite !Z.leb_le in *. lia. }
    destruct ((ts_hour now >=? hour) && (ts_minute now >=? minute)
              && (ts_second now >=? second) && (ts_microsecond now >? 0));
      apply Hreplace.
Qed.

(** The sleep of [_wait] is the least whole number of seconds that
    reaches the opening time: never short of it, and less than a second
    over; before the opening time it is at least one second. *)
Theorem sleep_duration_reaches_opening (opening now : Timestamp) :
  opening - now <= sleep_duration opening now * ns_per_second < opening - now + ns_per_second
  /\ (now < opening -> 1 <= sleep_duration opening now).
Proof.
  unfold sleep_duration, ns_per_second.
  split; [|intro Hlt]; Z.div_mod_to_equations; lia.
Qed.

(** *** The failure list *)

Lemma append_assoc (a b c : string) : (a ++ b) ++ c = a ++ (b ++ c).
Proof. induction a as [|ch a IH]; simpl; [reflexivity | rewrite IH; reflexivity]. Qed.

Lemma append_empty (a : string) : a ++ "" = a.
Proof. induction a as [|ch a IH]; simpl; [reflexivity | rewrite IH; reflexivity]. Qed.

Lemma prefix_append (s t : string) : prefix s (s ++ t) = true.
Proof.
  induction s as [|ch s IH]; simpl; [destruct t; reflexivity|].
  destruct (ascii_dec ch ch); [exact IH | contradiction].
Qed.

Lemma contains_prefix (needle s : string) : prefix needle s = true -> contains needle s = true.
Proof. intro H. destruct s; cbn [contains]; rewrite H; reflexivity. Qed.

Lemma contains_append (needle s t : string) :
  contains needle t = true -> contains needle (s ++ t) = true.
Proof.
  intro H. induction s as [|ch s IH]; [exact H|].
  cbn [append contains]. rewrite IH. apply orb_true_r.
Qed.

Lemma contains_between (needle a b : string) : contains needle (a ++ needle ++ b) = true.
Proof. apply contains_append, contains_prefix, prefix_append. Qed.

Lemma join_holds_its_parts (sep x : string) (parts : list string) :
  In x parts -> exists a b, join sep parts = a ++ x ++ b.
Proof.
  unfold join. induction parts as [|y parts IH]; [intros []|].
  intros [->|Hin].
  - exists "". destruct parts as [|z parts]; simpl.
    + exists "". symmetry. apply append_empty.
    + eexists. reflexivity.
  - destruct parts as [|z parts]; [destruct Hin|].
    destruct (IH Hin) as (a & b & Heq).
    exists (y ++ sep ++ a), b.
    change (String.concat sep (y :: z :: parts))
      with (y ++ sep ++ String.concat sep (z :: parts)).
    rewrite Heq, !append_assoc. reflexivity.
Qed.

(** Every hour recorded as failed has its own entry in the text of line
    47: two spaces, a dash, the hour on two digits, and [":00"]. *)
Theorem failure_message_names_every_failure (failures : list Z) (t : Z) :
  In t failures ->
  contains ("  - " ++ fmt_0d 2 t ++ ":00") (failure_message failures) = true.
Proof.
  intro Hin. unfold failure_message.
  destruct (join_holds_its_parts nl ("  - " ++ fmt_0d 2 t ++ ":00")
              (map (fun t => "  - " ++ fmt_0d 2 t ++ ":00") failures)) as (a & b & Heq).
  { apply (in_map (fun t => "  - " ++ fmt_0d 2 t ++ ":00")). exact Hin. }
  rewrite Heq.
  do 2 apply contains_append. apply contains_between.
Qed.

Section MoreProperties.

Context {Env WebElement : Type} {drv : WebDriver Env WebElement}.

Local Abbreviation State := (Handler Env WebElement).
Local Abbreviation Trace := (list (event WebElement)).
Local Abbreviation Body := (@M Env WebElement).

(** *** Reading a run backwards *)

Lemma bind_ok_inv {A B : Type} (m : Body A) (k : A -> Body B) (h h' : State) (b : B) :
  bind m k h = (Ok b, h') ->
  exists a h1, m h = (Ok a, h1) /\ k a h1 = (Ok b, h').
Proof.
  unfold bind. destruct (m h) as [[a|e|] h1]; try discriminate.
  intro H. exists a, h1. split; [reflexivity | assumption].
Qed.

Lemma call_ok_inv {A : Type} (ev : event WebElement) (op : Env -> outcome A * Env)
    (h h' : State) (a : A) :
  call ev op h = (Ok a, h') ->
  exists d, op (driver h) = (Returns a, d) /\ h' = moved h d [ev].
Proof.
  unfold call. destruct (op (driver h)) as [[a'|e] d]; simpl; [|discriminate].
  intro H. injection H as -> <-. exists d. split; reflexivity.
Qed.

Lemma moved_moved (h : State) (d1 d2 : Env) (evs1 evs2 : Trace) :
  moved (moved h d1 evs1) d2 evs2 = moved h d2 (evs1 ++ evs2).
Proof. unfold moved. simpl. rewrite <- app_assoc. reflexivity. Qed.

(** *** [_check_element] *)

(** What [_check_element] makes of the bounded wait.  A [wait] that is
    not positive is an [AssertionError] before the page is asked.
    Otherwise the page is asked once: a timeout comes back as a
    [TimeoutException] whose message is the driver's followed, on a new
    line, by the stripped [err_post_message], or the driver's own when
    that is blank; any other exception comes back as it is. *)
Theorem check_element_outcomes (loc : locator) (err_post_message : string) (wait : Z)
    (h : State) :
  (wait <= 0 ->
   _check_element loc err_post_message wait h
   = (Raise (AssertionError "wait must be a positive number"), h))
  /\ (0 < wait ->
      forall r d, wait_until_present loc wait (driver h) = (r, d) ->
      _check_element loc err_post_message wait h
      = (match r with
         | Returns _ => Ok tt
         | Raises (TimeoutException m) =>
             Raise (TimeoutException
                      (if String.eqb (strip err_post_message) "" then m
                       else m ++ nl ++ strip err_post_message))
         | Raises e => Raise e
         end,
         moved h d [EvWaitPresent loc wait])).
Proof.
  split.
  - intro Hw. unfold _check_element, try_except, bind, assert_.
    destruct (Z.gtb_spec wait 0) as [Hgt|_]; [lia|]. reflexivity.
  - intros Hw r d Hr. unfold _check_element, try_except, bind, assert_.
    destruct (Z.gtb_spec wait 0) as [_|Hle]; [|lia]. simpl.
    unfold until_present, call. rewrite Hr.
    destruct r as [[]|e]; [reflexivity|].
    destruct e; simpl; try reflexivity.
    destruct (String.eqb (strip err_post_message) ""); reflexivity.
Qed.

Lemma check_element_ok_inv (loc : locator) (msg : string) (wait : Z) (h h' : State) :
  _check_element loc msg wait h = (Ok tt, h') ->
  exists d, wait_until_present loc wait (driver h) = (Returns tt, d)
            /\ h' = moved h d [EvWaitPresent loc wait].
Proof.
  unfold _check_element, try_except, bind, assert_.
  destruct (wait >? 0); simpl; [|discriminate].
  unfold until_present, call.
  destruct (wait_until_present loc wait (driver h)) as [[[]|e] d] eqn:Hw; simpl.
  - intro H. injection H as <-. exists d. split; reflexivity.
  - destruct (is_TimeoutException e); [|discriminate].
    destruct (String.eqb (strip msg) ""); discriminate.
Qed.

(** *** [_wait] *)

(** Once the opening time has come, [_wait] reads the clock once and
    returns, whatever the fuel.  Before it, with a clock that has reached
    the opening time after the sleep asked for, [_wait] sleeps once,
    reads the clock again and returns. *)
Theorem wait_sleeps_at_most_once_on_a_good_clock (fuel : nat) (hour minute second : Z)
    (h : State) (t0 opening : Timestamp) (d0 : Env) :
  timestamp_now (driver h) = (t0, d0) ->
  opening_time hour minute second t0 = Ok opening ->
  (opening <= t0 ->
   _wait fuel hour minute second h = (Ok tt, moved h d0 [EvNow]))
  /\ (t0 < opening ->
      forall d1 t1 d2,
        time_sleep (sleep_duration opening t0) d0 = (Returns tt, d1) ->
        timestamp_now d1 = (t1, d2) ->
        opening <= t1 ->
        _wait (S fuel) hour minute second h
        = (Ok tt, moved h d2 [EvNow; EvSleep (sleep_duration opening t0); EvNow])).
Proof.
  intros Hnow Hopen. split.
  - intro Hpassed. unfold _wait, bind, now, call. rewrite Hnow. simpl. rewrite Hopen.
    destruct fuel; simpl; destruct (Z.ltb_spec t0 opening); try lia; reflexivity.
  - intros Hbefore d1 t1 d2 Hsleep Hnow1 Hreached.
    unfold _wait, bind, now, call. rewrite Hnow. simpl. rewrite Hopen. simpl.
    destruct (Z.ltb_spec t0 opening); [|lia].
    unfold bind, sleep, now, call. simpl. rewrite Hsleep. simpl. rewrite Hnow1. simpl.
    assert (Hdone : forall (s : State), wait_loop fuel t1 opening s = (Ok tt, s)).
    { intro s. destruct fuel; simpl; destruct (Z.ltb_spec t1 opening); try lia; reflexivity. }
    rewrite Hdone. unfold moved. simpl. rewrite <- !app_assoc. reflexivity.
Qed.

(** *** The session *)

Lemma untouched_ret {A : Type} (a : A) : untouched (ret a : Body A).
Proof. intro h. repeat split. Qed.

Lemma untouched_raise {A : Type} (e : exn) : untouched (raise e : Body A).
Proof. intro h. repeat split. Qed.

Lemma untouched_hang {A : Type} : untouched ((fun h => (Hang, h)) : Body A).
Proof. intro h. repeat split. Qed.

Lemma untouched_self {A : Type} (attr : State -> A) : untouched (self attr).
Proof. intro h. repeat split. Qed.

Lemma untouched_assert (cond : bool) (msg : string) : untouched (assert_ cond msg : Body unit).
Proof. destruct cond; intro h; repeat split. Qed.

Lemma untouched_call {A : Type} (ev : event WebElement) (op : Env -> outcome A * Env) :
  untouched (call ev op).
Proof. intro h. unfold call. destruct (op (driver h)) as [r d]. repeat split. Qed.

Lemma untouched_print (line : string) : untouched (print line : Body unit).
Proof. intro h. repeat split. Qed.

Lemma untouched_bind {A B : Type} (m : Body A) (k : A -> Body B) :
  untouched m -> (forall a, untouched (k a)) -> untouched (bind m k).
Proof.
  intros Hm Hk h. unfold bind. destruct (Hm h) as (Hu & Hp & Hf).
  destruct (m h) as [[a|e|] h1]; simpl in *; try (repeat split; assumption).
  destruct (Hk a h1) as (Hu' & Hp' & Hf').
  repeat split; congruence.
Qed.

Lemma untouched_try_except {A : Type} (body : Body A) (catches : exn -> bool)
    (handler : exn -> Body A) :
  untouched body -> (forall e, untouched (handler e)) ->
  untouched (try_except body catches handler).
Proof.
  intros Hb Hh h. unfold try_except. destruct (Hb h) as (Hu & Hp & Hf).
  destruct (body h) as [[a|e|] h1]; simpl in *; try (repeat split; assumption).
  destruct (catches e); [|repeat split; assumption].
  destruct (Hh e h1) as (Hu' & Hp' & Hf').
  repeat split; congruence.
Qed.

Create HintDb session.

#[local] Hint Resolve untouched_ret untouched_raise untouched_hang untouched_self
  untouched_assert untouched_call untouched_print untouched_bind untouched_try_except
  : session.

(** Unfolds the calls on the world down to [call]. *)
Ltac open_calls :=
  unfold get, find_element, find_elements, text, click, send_keys, until_present, now, sleep.

Lemma check_element_untouched (loc : locator) (msg : string) (wait : Z) :
  untouched (_check_element loc msg wait).
Proof.
  unfold _check_element; open_calls.
  apply untouched_try_except; [auto with session|].
  intro e. destruct (String.eqb (strip msg) ""); auto with session.
Qed.

#[local] Hint Resolve check_element_untouched : session.

Lemma check_load_okay_untouched : untouched (_check_load_okay : Body unit).
Proof. apply check_element_untouched. Qed.

#[local] Hint Resolve check_load_okay_untouched : session.

Lemma wait_loop_untouched (fuel : nat) (now_ opening : Timestamp) :
  untouched (wait_loop fuel now_ opening : Body unit).
Proof.
  revert now_. induction fuel as [|fuel IH]; intro now_; simpl;
    destruct (now_ <? opening); open_calls; auto 10 with session.
Qed.

Lemma go_to_cms_page_and_wait_untouched (fuel : nat) (hour minute second : Z) :
  untouched (_go_to_cms_page_and_wait fuel hour minute second : Body unit).
Proof.
  unfold _go_to_cms_page_and_wait, _wait; open_calls.
  apply untouched_bind; [auto with session|]. intros _.
  apply untouched_bind; [auto with session|]. intros _.
  apply untouched_bind; [auto with session|]. intro now_.
  destruct (opening_time hour minute second now_); auto with session.
  apply wait_loop_untouched.
Qed.

Lemma select_date_untouched (es : list WebElement) (date : Date) (date_text : string) :
  untouched (select_date es date date_text).
Proof.
  induction es as [|e es IH]; simpl; open_calls; [auto with session|].
  apply untouched_bind; [auto with session|].
  intro t. destruct (String.eqb t date_text); auto 10 with session.
Qed.

Lemma shows_wanted_court_untouched (indoors : bool) (e : WebElement) :
  untouched (shows_wanted_court indoors e).
Proof.
  unfold shows_wanted_court; open_calls.
  apply untouched_bind; [destruct indoors; auto 10 with session|].
  intros [|]; [auto with session|].
  destruct (negb indoors); auto 10 with session.
Qed.

Lemma pick_court_untouched (options : list WebElement) (indoors : bool) :
  untouched (pick_court options indoors).
Proof.
  induction options as [|ee options IH]; simpl; open_calls; [auto with session|].
  apply untouched_bind; [apply shows_wanted_court_untouched|].
  intros [|]; auto 10 with session.
Qed.

Lemma pick_duration_untouched (options : list WebElement) (duration_text : string) :
  untouched (pick_duration options duration_text).
Proof.
  induction options as [|ee options IH]; simpl; open_calls; [auto with session|].
  apply untouched_bind; [auto with session|].
  intro t. destruct (String.eqb t duration_text); auto 10 with session.
Qed.

Lemma set_dropdown_untouched (e : WebElement) (indoors : bool) (duration : Z) :
  untouched (set_dropdown e indoors duration).
Proof.
  unfold set_dropdown; open_calls.
  pose proof shows_wanted_court_untouched as Hcourt.
  pose proof pick_court_untouched as Hpick.
  pose proof pick_duration_untouched as Hduration.
  apply untouched_bind; [auto with session|].
  intro label. destruct (is_court_label label).
  - apply untouched_bind; [apply Hcourt|].
    intros [|]; auto 10 with session.
  - destruct (is_duration_label label); [|auto with session].
    apply untouched_bind; [auto with session|].
    intro shown. destruct (String.eqb shown (duration_text duration)); auto 10 with session.
Qed.

Lemma set_dropdowns_untouched (es : list WebElement) (indoors : bool) (duration : Z) :
  untouched (set_dropdowns es indoors duration).
Proof.
  induction es as [|e es IH]; simpl; [auto with session|].
  apply untouched_bind; [apply set_dropdown_untouched | intros _; apply IH].
Qed.

Lemma set_options_untouched (date : Date) (indoors : bool) (duration : Z) :
  untouched (_set_options date indoors duration : Body unit).
Proof.
  unfold _set_options; open_calls.
  apply untouched_bind; [auto with session|]. intro dates.
  apply untouched_bind; [apply select_date_untouched|]. intros _.
  apply untouched_bind; [auto with session|]. intro dropdowns.
  apply set_dropdowns_untouched.
Qed.

Lemma with_text_untouched (es : list WebElement) (txt : string) :
  untouched (with_text es txt).
Proof.
  induction es as [|e es IH]; simpl; open_calls; auto 10 with session.
Qed.

Lemma book_first_untouched (elements : list WebElement) : untouched (book_first elements).
Proof.
  induction elements as [|e elements IH]; simpl; [auto with session|].
  apply untouched_bind.
  - unfold book, book_steps; open_calls. auto 20 with session.
  - intros [|]; auto with session.
Qed.

Lemma reserve_time_untouched (time : Z) : untouched (_reserve_time time : Body bool).
Proof.
  unfold _reserve_time; open_calls.
  apply untouched_bind; [intro h; repeat split|]. intros _.
  apply untouched_bind; [auto with session|]. intro found.
  apply untouched_bind; [apply with_text_untouched|]. intro elements.
  apply book_first_untouched.
Qed.

Lemma reserve_times_untouched (times failures : list Z) :
  untouched (reserve_times times failures : Body round).
Proof.
  revert failures. induction times as [|t times IH]; intro failures; simpl;
    [auto with session|].
  apply untouched_bind.
  - unfold reserve_round. pose proof (reserve_time_untouched t) as Ht.
    apply untouched_try_except; [|auto with session].
    apply untouched_bind; [exact Ht|]. intros [|]; auto with session.
  - intros [|failures']; auto with session.
Qed.

Lemma reserve_and_report_untouched (times : list Z) :
  untouched (reserve_and_report times : Body unit).
Proof.
  unfold reserve_and_report.
  apply untouched_bind; [apply reserve_times_untouched|].
  intros [|failures]; [auto with session|].
  destruct (Z.of_nat (length failures) >? 0); auto with session.
Qed.

Lemma logs_in_bind {A B : Type} (m : Body A) (k : A -> Body B) :
  untouched m -> (forall a, logs_in (k a)) -> logs_in (bind m k).
Proof.
  intros Hm Hk h. unfold bind. destruct (Hm h) as (Hu & Hp & Hf).
  destruct (m h) as [[a|e|] h1]; simpl in *; try (repeat split; assumption).
  destruct (Hk a h1) as (Hu' & Hp' & Hf').
  repeat split; try congruence.
  destruct (fst (k a h1)); congruence.
Qed.

Lemma logs_in_set_is_logged_in : logs_in (set_is_logged_in true : Body unit).
Proof. intro h. repeat split. Qed.

Lemma logs_in_unless_logged_in (rest : Body unit) :
  logs_in rest ->
  logs_in (bind (self _is_logged_in) (fun logged_in => if logged_in then ret tt else rest)).
Proof.
  intros Hrest h. unfold bind, self.
  destruct (_is_logged_in h) eqn:Hflag; [simpl; auto|].
  destruct (Hrest h) as (Hu & Hp & Hf). rewrite Hflag in Hf.
  repeat split; assumption.
Qed.

Lemma login_logs_in : logs_in (_login : Body unit).
Proof.
  unfold _login. apply logs_in_unless_logged_in. open_calls.
  repeat (apply logs_in_bind; [auto with session | intro]).
  apply logs_in_set_is_logged_in.
Qed.

Lemma logs_in_ends_logged_in {A : Type} (m : Body A) : logs_in m -> ends_logged_in m.
Proof.
  intros Hm h. destruct (Hm h) as (Hu & Hp & Hf).
  repeat split; try assumption.
  - intro Hin. destruct (fst (m h)); congruence.
  - intros a Ha. rewrite Ha in Hf. assumption.
Qed.

Lemma ends_logged_in_then {A B : Type} (m : Body A) (k : A -> Body B) :
  ends_logged_in m -> (forall a, untouched (k a)) -> ends_logged_in (bind m k).
Proof.
  intros Hm Hk h. unfold bind. destruct (Hm h) as (Hu & Hp & Hf & Hok).
  destruct (m h) as [[a|e|] h1]; simpl in *;
    try (repeat split; try assumption; discriminate).
  destruct (Hk a h1) as (Hu' & Hp' & Hf').
  repeat split; try congruence.
  - intro Hin. rewrite Hf'. auto.
  - intros b _. rewrite Hf'. apply (Hok a). reflexivity.
Qed.

Lemma ends_logged_in_after {A B : Type} (m : Body A) (k : A -> Body B) :
  untouched m -> (forall a, ends_logged_in (k a)) -> ends_logged_in (bind m k).
Proof.
  intros Hm Hk h. unfold bind. destruct (Hm h) as (Hu & Hp & Hf).
  destruct (m h) as [[a|e|] h1]; simpl in *;
    try (repeat split; try congruence; discriminate).
  destruct (Hk a h1) as (Hu' & Hp' & Hf' & Hok').
  repeat split; try congruence.
  - intro Hin. apply Hf'. congruence.
  - exact Hok'.
Qed.

Lemma make_reservations_ends_logged_in (fuel : nat) (date : Date) (indoor : bool)
    (duration : Z) (times : list Z) :
  ends_logged_in (make_reservations fuel date indoor duration times : Body unit).
Proof.
  unfold make_reservations, prepare.
  apply ends_logged_in_then; [|intros _; apply reserve_and_report_untouched].
  apply ends_logged_in_after; [auto with session|]. intros _.
  apply ends_logged_in_then.
  - apply logs_in_ends_logged_in, login_logs_in.
  - intros _. apply untouched_bind;
      [apply go_to_cms_page_and_wait_untouched | intros _; apply set_options_untouched].
Qed.

(** [_login] never changes the credentials; it ends with the flag set
    when it returns, and with the flag as it was when it raises: a login
    that fails leaves the session unauthenticated. *)
Theorem login_sets_the_flag_only_on_success (h : State) :
  _username (snd (_login h)) = _username h
  /\ _password (snd (_login h)) = _password h
  /\ (forall e, fst (_login h) = Raise e -> _is_logged_in (snd (_login h)) = _is_logged_in h)
  /\ (fst (_login h) = Ok tt -> _is_logged_in (snd (_login h)) = true).
Proof.
  destruct (login_logs_in h) as (Hu & Hp & Hf).
  repeat split; try assumption.
  - intros e He. rewrite He in Hf. assumption.
  - intro Hok. rewrite Hok in Hf. assumption.
Qed.

(** Logging in twice in a row is logging in once: after a login that
    returned, the second one does nothing. *)
Theorem login_twice_is_login_once (h : State) :
  bind _login (fun _ => _login) h = _login h.
Proof.
  destruct (login_logs_in h) as (_ & _ & Hf).
  unfold bind at 1.
  destruct (_login h) as [[[]|e|] h1]; simpl in *; try reflexivity.
  unfold _login, bind, self. rewrite Hf. reflexivity.
Qed.

(** Through a whole run of [make_reservations] the credentials stay as
    they are and the flag is never cleared; a run that returns ends with
    the flag set. *)
Theorem make_reservations_keeps_the_session (fuel : nat) (date : Date) (indoor : bool)
    (duration : Z) (times : list Z) (h : State) :
  let h' := snd (make_reservations fuel date indoor duration times h) in
  _username h' = _username h
  /\ _password h' = _password h
  /\ (_is_logged_in h = true -> _is_logged_in h' = true)
  /\ (fst (make_reservations fuel date indoor duration times h) = Ok tt ->
      _is_logged_in h' = true).
Proof.
  destruct (make_reservations_ends_logged_in fuel date indoor duration times h)
    as (Hu & Hp & Hf & Hok).
  repeat split; try assumption. apply Hok.
Qed.

(** A [_login] that goes through, from the flag unset: the login page is
    loaded and awaited, the user-name field is found by its id and the
    user name typed into it, the password field is found by its id and
    the password typed into it, the login button is found by its id and
    clicked, and the signed-in header awaited; each call returns, in this
    order and with nothing else in between, and the flag is set. *)
Theorem login_steps (h h' : State) :
  _is_logged_in h = false ->
  _login h = (Ok tt, h') ->
  exists login_input password_input login_button,
    login_went_through (_username h) (_password h) (driver h) (driver h')
      login_input password_input login_button
    /\ trace h'
       = app (trace h)
           [EvGet "https://thetanglinclub.clubhouseonline-e3.net/login.aspx";
            EvWaitPresent (ID, _chunk ++ "UserName") 1;
            EvFindElement ID (_chunk ++ "UserName");
            EvSendKeys login_input (_username h);
            EvFindElement ID (_chunk ++ "Password");
            EvSendKeys password_input (_password h);
            EvFindElement ID (_chunk ++ "LoginButton");
            EvClick login_button;
            EvWaitPresent (ID, "p_lt_Header_MyProfilePages_divSignedIn") 1]
    /\ _is_logged_in h' = true.
Proof.
  intros Hflag Hlogin. unfold _login in Hlogin.
  apply bind_ok_inv in Hlogin as (b & h0 & Hself & Hrest).
  unfold self in Hself. injection Hself as <- <-. rewrite Hflag in Hrest.
  open_calls.
  apply bind_ok_inv in Hrest as ([] & h1 & H1 & Hrest).
  apply call_ok_inv in H1 as (d1 & C1 & ->).
  apply bind_ok_inv in Hrest as ([] & h2 & H2 & Hrest).
  apply check_element_ok_inv in H2 as (d2 & C2 & ->).
  apply bind_ok_inv in Hrest as (login_input & h3 & H3 & Hrest).
  apply call_ok_inv in H3 as (d3 & C3 & ->).
  apply bind_ok_inv in Hrest as (username & h4 & H4 & Hrest).
  unfold self in H4. injection H4 as <- <-.
  apply bind_ok_inv in Hrest as ([] & h5 & H5 & Hrest).
  apply call_ok_inv in H5 as (d4 & C4 & ->).
  apply bind_ok_inv in Hrest as (password_input & h6 & H6 & Hrest).
  apply call_ok_inv in H6 as (d5 & C5 & ->).
  apply bind_ok_inv in Hrest as (password & h7 & H7 & Hrest).
  unfold self in H7. injection H7 as <- <-.
  apply bind_ok_inv in Hrest as ([] & h8 & H8 & Hrest).
  apply call_ok_inv in H8 as (d6 & C6 & ->).
  apply bind_ok_inv in Hrest as (login_button & h9 & H9 & Hrest).
  apply call_ok_inv in H9 as (d7 & C7 & ->).
  apply bind_ok_inv in Hrest as ([] & h10 & H10 & Hrest).
  apply call_ok_inv in H10 as (d8 & C8 & ->).
  apply bind_ok_inv in Hrest as ([] & h11 & H11 & Hrest).
  apply check_element_ok_inv in H11 as (d9 & C9 & ->).
  unfold set_is_logged_in in Hrest. injection Hrest as <-.
  simpl in C1, C2, C3, C4, C5, C6, C7, C8, C9.
  exists login_input, password_input, login_button.
  split; [|split].
  - exists d1, d2, d3, d4, d5, d6, d7, d8. simpl. repeat split; assumption.
  - simpl. rewrite <- !app_assoc. reflexivity.
  - reflexivity.
Qed.

(** *** [_reserve_time] *)

Lemma with_text_ok_inv (es : list WebElement) (txt : string) (h h' : State)
    (kept : list WebElement) :
  with_text es txt h = (Ok kept, h') ->
  trace h' = (trace h ++ map EvText es)%list
  /\ incl kept es
  /\ (length kept <= length es)%nat.
Proof.
  revert h h' kept. induction es as [|e es IH]; intros h h' kept; simpl.
  - unfold ret. intro H. injection H as <- <-.
    split; [symmetry; apply app_nil_r|]. split; [apply incl_refl | simpl; lia].
  - intro H. unfold text in H.
    apply bind_ok_inv in H as (t & h1 & H1 & H).
    apply call_ok_inv in H1 as (d1 & _ & ->).
    apply bind_ok_inv in H as (rest & h2 & H2 & H).
    apply IH in H2 as (Htr & Hincl & Hlen).
    unfold ret in H. injection H as <- <-.
    split; [|split].
    + rewrite Htr. simpl. rewrite <- app_assoc. reflexivity.
    + destruct (String.eqb t txt).
      * intros x [<-|Hx]; [left; reflexivity | right; apply Hincl, Hx].
      * intros x Hx. right. apply Hincl, Hx.
    + destruct (String.eqb t txt); simpl; lia.
Qed.

Lemma book_steps_ok_inv (e : WebElement) (h h' : State) (b : bool) :
  book_steps e h = (Ok b, h') ->
  b = true
  /\ exists book_now_button,
       booking_went_through e book_now_button (driver h) (driver h')
       /\ trace h' = (trace h ++ booking_calls e book_now_button)%list.
Proof.
  intro H. unfold book_steps in H. open_calls.
  apply bind_ok_inv in H as ([] & h1 & H1 & H).
  apply call_ok_inv in H1 as (d1 & C1 & ->).
  apply bind_ok_inv in H as ([] & h2 & H2 & H).
  apply check_element_ok_inv in H2 as (d2 & C2 & ->).
  apply bind_ok_inv in H as (button & h3 & H3 & H).
  apply call_ok_inv in H3 as (d3 & C3 & ->).
  apply bind_ok_inv in H as ([] & h4 & H4 & H).
  apply call_ok_inv in H4 as (d4 & C4 & ->).
  apply bind_ok_inv in H as ([] & h5 & H5 & H).
  apply check_element_ok_inv in H5 as (d5 & C5 & ->).
  unfold ret in H. injection H as <- <-.
  simpl in C1, C2, C3, C4, C5.
  split; [reflexivity|].
  exists button. split.
  - exists d1, d2, d3, d4. simpl. repeat split; assumption.
  - simpl. rewrite <- !app_assoc. reflexivity.
Qed.

Lemma book_first_true_inv (elements : list WebElement) (h h' : State) :
  book_first elements h = (Ok true, h') ->
  exists e book_now_button h0 earlier,
    In e elements
    /\ trace h0 = (trace h ++ earlier)%list
    /\ booking_went_through e book_now_button (driver h0) (driver h')
    /\ trace h' = (trace h0 ++ booking_calls e book_now_button)%list.
Proof.
  revert h. induction elements as [|e elements IH]; intro h; simpl.
  - unfold ret. discriminate.
  - intro H. apply bind_ok_inv in H as (booked & h1 & Hbook & H).
    destruct booked.
    + unfold ret in H. injection H as <-.
      unfold book, try_except in Hbook.
      destruct (book_steps e h) as [[b|x|] h2] eqn:Hsteps; try discriminate.
      injection Hbook as -> ->.
      apply book_steps_ok_inv in Hsteps as (_ & button & Hrun & Htr).
      exists e, button, h, [].
      split; [left; reflexivity|]. split; [symmetry; apply app_nil_r|].
      split; assumption.
    + destruct (book_emits e h) as (evs & Hevs & _). rewrite Hbook in Hevs. simpl in Hevs.
      apply IH in H as (e' & button & h0 & earlier & Hin & Hpre & Hrun & Htr).
      exists e', button, h0, (evs ++ earlier)%list.
      split; [right; assumption|].
      split; [rewrite Hpre, Hevs, app_assoc; reflexivity|].
      split; assumption.
Qed.

(** [_reserve_time] returns [True] only at the end of a booking that went
    through.  After the lookup of the slots and the reading of their
    texts, and after the calls spent on earlier elements, its last five
    calls are the click on a slot element [e] of the lookup, the wait for
    the Book Now button, the lookup of that button, the click on the
    element this lookup returned, and the wait for the success banner;
    each of the five returned, on the world the one before left, and the
    world after the last is the world [_reserve_time] ends in. *)
Theorem reserve_time_true_after_the_banner (time : Z) (h h' : State) :
  _reserve_time time h = (Ok true, h') ->
  exists found d0 e book_now_button h0 earlier,
    driver_find_elements CSS_SELECTOR "div.start-time.ng-binding.ng-scope" (driver h)
    = (Returns found, d0)
    /\ In e found
    /\ trace h0
       = (trace h
          ++ [EvReserveTime time;
              EvFindElements CSS_SELECTOR "div.start-time.ng-binding.ng-scope"]
          ++ map EvText found ++ earlier)%list
    /\ booking_went_through e book_now_button (driver h0) (driver h')
    /\ trace h' = (trace h0 ++ booking_calls e book_now_button)%list.
Proof.
  intro H. unfold _reserve_time in H.
  apply bind_ok_inv in H as ([] & h1 & Henter & H).
  unfold enter_reserve_time in Henter. injection Henter as <-.
  unfold find_elements in H.
  apply bind_ok_inv in H as (found & h2 & Hfound & H).
  apply call_ok_inv in Hfound as (d0 & Hfound & ->). simpl in Hfound.
  apply bind_ok_inv in H as (elements & h3 & Hkept & H).
  apply with_text_ok_inv in Hkept as (Htexts & Hincl & _).
  apply book_first_true_inv in H as (e & button & h0 & earlier & Hin & Hpre & Hrun & Htr).
  exists found, d0, e, button, h0, earlier.
  split; [assumption|]. split; [apply Hincl, Hin|].
  split; [|split; assumption].
  rewrite Hpre, Htexts. simpl. rewrite <- !app_assoc. reflexivity.
Qed.

(** The list comprehension of [_reserve_time] reads the text of every
    element of the lookup, in order, before anything is clicked, and
    keeps none but elements of the lookup. *)
Theorem with_text_reads_every_element (es kept : list WebElement) (txt : string)
    (h h' : State) :
  with_text es txt h = (Ok kept, h') ->
  trace h' = (trace h ++ map EvText es)%list
  /\ incl kept es
  /\ (length kept <= length es)%nat.
Proof. apply with_text_ok_inv. Qed.

(** *** [_set_options] *)

Lemma check_element_run (loc : locator) (msg : string) (wait : Z) (h : State) :
  0 < wait ->
  snd (_check_element loc msg wait h)
  = moved h (snd (wait_until_present loc wait (driver h))) [EvWaitPresent loc wait].
Proof.
  intro Hw. unfold _check_element, try_except, bind, assert_.
  destruct (Z.gtb_spec wait 0) as [_|Hle]; [|lia]. simpl.
  unfold until_present, call.
  destruct (wait_until_present loc wait (driver h)) as [[[]|e] d]; simpl; [reflexivity|].
  destruct (is_TimeoutException e); [|reflexivity].
  destruct (String.eqb (strip msg) ""); reflexivity.
Qed.

Lemma select_date_clicks (es : list WebElement) (date : Date) (date_text : string)
    (h h' : State) (r : result unit) :
  select_date es date date_text h = (r, h') ->
  exists l,
    clicked (trace h') = (clicked (trace h) ++ l)%list
    /\ (l = [] \/ exists e, In e es /\ l = [e])
    /\ (r = Ok tt -> l <> []).
Proof.
  revert h h' r. induction es as [|e es IH]; intros h h' r; simpl.
  - unfold raise. intro H. injection H as <- <-.
    exists []. split; [symmetry; apply app_nil_r|]. split; [left; reflexivity | discriminate].
  - unfold bind at 1. unfold text, call.
    destruct (element_text e (driver h)) as [[t|x] d]; simpl.
    + destruct (String.eqb t date_text).
      * unfold bind, click, call. simpl.
        destruct (element_click e d) as [[[]|x] d1]; simpl.
        -- pose proof (check_element_run
                         (CSS_SELECTOR, "div.container.slick-initialized.slick-slider")
                         "Could not load schedule table" 1
                         (mkHandler d1 (_username h) (_password h) (_is_logged_in h)
                                    ((trace h ++ [EvText e]) ++ [EvClick e])) ltac:(lia))
             as Hrun.
           unfold _check_load_okay.
           destruct (_check_element _ _ 1 _) as [r1 h1]. simpl in Hrun. subst h1.
           intro H. injection H as <- <-.
           exists [e]. simpl. rewrite !clicked_app. simpl. rewrite !app_nil_r.
           split; [reflexivity|].
           split; [right; exists e; split; [left|]; reflexivity | discriminate].
        -- intro H. injection H as <- <-.
           exists [e]. simpl. rewrite !clicked_app. simpl. rewrite !app_nil_r.
           split; [reflexivity|].
           split; [right; exists e; split; [left|]; reflexivity | discriminate].
      * intro H. apply IH in H as (l & Hl & Hshape & Hok).
        exists l. simpl in Hl. rewrite clicked_app in Hl. simpl in Hl.
        rewrite app_nil_r in Hl.
        split; [exact Hl|]. split; [|exact Hok].
        destruct Hshape as [->|(e' & Hin & ->)]; [left; reflexivity|].
        right. exists e'. split; [right; assumption | reflexivity].
    + intro H. injection H as <- <-.
      exists []. simpl. rewrite clicked_app. simpl.
      split; [reflexivity|]. split; [left; reflexivity | discriminate].
Qed.

(** The choice of the date clicks at most one element, one of the date
    elements looked up, and exactly one when it returns; with no date
    element at all it raises. *)
Theorem select_date_clicks_one_date (es : list WebElement) (date : Date)
    (date_text : string) (h h' : State) (r : result unit) :
  select_date es date date_text h = (r, h') ->
  (exists l,
      clicked (trace h') = (clicked (trace h) ++ l)%list
      /\ (l = [] \/ exists e, In e es /\ l = [e])
      /\ (r = Ok tt -> l <> []))
  /\ (es = [] ->
      r = Raise (RuntimeError ("Could not find date " ++ strftime_Y_m_d date
                               ++ " in Tennis loading page"))
      /\ h' = h).
Proof.
  intro H. split; [apply (select_date_clicks es date date_text h h' r H)|].
  intros ->. simpl in H. unfold raise in H. injection H as <- <-. split; reflexivity.
Qed.

(** *** [make_reservations] *)

(** A duration other than 1 and 2 ends [make_reservations] in the
    [AssertionError] of line 28 before anything is done: no page is
    loaded and the handler is as before. *)
Theorem make_reservations_refuses_other_durations (fuel : nat) (date : Date)
    (indoor : bool) (duration : Z) (times : list Z) (h : State) :
  duration <> 1 -> duration <> 2 ->
  make_reservations fuel date indoor duration times h
  = (Raise (AssertionError "duration can only be 1 or 2 hours"), h).
Proof.
  intros H1 H2. unfold make_reservations, prepare, bind, assert_.
  destruct (Z.eqb_spec duration 1); [contradiction|].
  destruct (Z.eqb_spec duration 2); [contradiction|]. reflexivity.
Qed.

(** An exception of the login, of the wait on the booking page or of the
    filters ends [make_reservations] as it is, of whatever class, and no
    hour is attempted. *)
Theorem make_reservations_preparation_errors_are_fatal (fuel : nat) (date : Date)
    (indoor : bool) (duration : Z) (times : list Z) (h h1 : State) (e : exn) :
  prepare fuel date indoor duration h = (Raise e, h1) ->
  make_reservations fuel date indoor duration times h = (Raise e, h1)
  /\ hours_attempted (trace h1) = hours_attempted (trace h).
Proof.
  intro Hprep. split.
  - unfold make_reservations, bind. rewrite Hprep. reflexivity.
  - pose proof (prepare_attempts fuel date indoor duration h) as Hq.
    rewrite Hprep in Hq. exact Hq.
Qed.

Lemma reserve_time_prints_nothing (t : Z) (h : State) :
  printed (trace (snd (_reserve_time t h))) = printed (trace h).
Proof.
  destruct (reserve_time_emits t h) as (evs & Htr & Hp).
  rewrite Htr, printed_app. simpl.
  rewrite (nothing_printed_in evs Hp). apply app_nil_r.
Qed.

Lemma reserve_round_printed (t : Z) (failures : list Z) (h : State) :
  printed (trace (snd (reserve_round t failures h)))
  = (printed (trace h)
     ++ match fst (reserve_round t failures h) with
        | Ok Returned => [success_message]
        | _ => []
        end)%list.
Proof.
  pose proof (reserve_time_prints_nothing t h) as Hp.
  unfold reserve_round, try_except, bind.
  destruct (_reserve_time t h) as [[[|]|x|] h1]; simpl in *.
  - rewrite printed_app, Hp. reflexivity.
  - rewrite Hp. symmetry. apply app_nil_r.
  - destruct (is_Exception x); simpl; rewrite Hp; symmetry; apply app_nil_r.
  - rewrite Hp. symmetry. apply app_nil_r.
Qed.

Lemma reserve_times_printed (times failures : list Z) (h : State) :
  printed (trace (snd (reserve_times times failures h)))
  = (printed (trace h)
     ++ match fst (reserve_times times failures h) with
        | Ok Returned => [success_message]
        | _ => []
        end)%list.
Proof.
  revert failures h. induction times as [|t times IH]; intros failures h; simpl.
  - symmetry. apply app_nil_r.
  - pose proof (reserve_round_printed t failures h) as Hr. unfold bind.
    destruct (reserve_round t failures h) as [[[|failures1]|x|] h1]; simpl in *;
      try exact Hr.
    rewrite IH, Hr, app_nil_r. reflexivity.
Qed.

Lemma reserve_round_failures (t : Z) (failures failures1 : list Z) (h h1 : State) :
  reserve_round t failures h = (Ok (Continue failures1), h1) ->
  failures1 = failures \/ failures1 = (failures ++ [t])%list.
Proof.
  unfold reserve_round, try_except, bind.
  destruct (_reserve_time t h) as [[[|]|x|] h2]; simpl; try discriminate.
  - intro H. injection H as <- _. left. reflexivity.
  - destruct (is_Exception x); simpl; [|discriminate].
    intro H. injection H as <- _. right. reflexivity.
Qed.

Lemma reserve_times_failures (times failures failures1 : list Z) (h h1 : State) :
  reserve_times times failures h = (Ok (Continue failures1), h1) ->
  exists raised, failures1 = (failures ++ raised)%list /\ incl raised times.
Proof.
  revert failures h. induction times as [|t times IH]; intros failures h; simpl.
  - unfold ret. intro H. injection H as <- _. exists [].
    split; [symmetry; apply app_nil_r | apply incl_refl].
  - intro H. apply bind_ok_inv in H as (r & h2 & Hr & H).
    destruct r as [|failures2]; [unfold ret in H; discriminate|].
    apply IH in H as (raised & -> & Hincl).
    apply reserve_round_failures in Hr as [->| ->].
    + exists raised. split; [reflexivity | apply incl_tl, Hincl].
    + exists (t :: raised). split; [rewrite <- app_assoc; reflexivity|].
      intros x [<-|Hx]; [left; reflexivity | right; apply Hincl, Hx].
Qed.

(** What the loop over the hours and the report print: the success
    message alone when an hour was booked, the failure list alone when
    the loop went through with failures recorded, and nothing otherwise;
    never both.  The failure list names none but hours of the request. *)
Theorem reserve_and_report_prints_one_line_at_most (times : list Z) (h : State) :
  printed (trace (snd (reserve_and_report times h)))
  = (printed (trace h)
     ++ match fst (reserve_times times [] h) with
        | Ok Returned => [success_message]
        | Ok (Continue (t :: failures)) => [failure_message (t :: failures)]
        | _ => []
        end)%list
  /\ (forall failures h1,
         reserve_times times [] h = (Ok (Continue failures), h1) -> incl failures times).
Proof.
  split.
  - pose proof (reserve_times_printed times [] h) as Hp.
    unfold reserve_and_report, bind.
    destruct (reserve_times times [] h) as [[[|failures]|x|] h1]; simpl in *;
      try exact Hp.
    destruct failures as [|t failures]; simpl; [exact Hp|].
    rewrite printed_app, Hp, app_nil_r. reflexivity.
  - intros failures h1 H.
    apply reserve_times_failures in H as (raised & -> & Hincl). exact Hincl.
Qed.

(** *** [_go_to_cms_page_and_wait] *)

(** When the booking page does not show its dropdown within the wait,
    [_go_to_cms_page_and_wait] ends in a [TimeoutException] whose message
    is the driver's followed by the note of line 80; the clock is not
    read and nothing is slept. *)
Theorem booking_page_that_does_not_load (fuel : nat) (hour minute second : Z)
    (h : State) (d1 d2 : Env) (m : string) :
  driver_get
    "https://thetanglinclub.clubhouseonline-e3.net/CMSModules/CHO/CourtManagement/CourtBooking.aspx"
    (driver h) = (Returns tt, d1) ->
  wait_until_present (CSS_SELECTOR, selector_css) 1 d1 = (Raises (TimeoutException m), d2) ->
  _go_to_cms_page_and_wait fuel hour minute second h
  = (Raise (TimeoutException (m ++ nl ++ "Could not load Tennis booking table page")),
     moved h d2
       [EvGet "https://thetanglinclub.clubhouseonline-e3.net/CMSModules/CHO/CourtManagement/CourtBooking.aspx";
        EvWaitPresent (CSS_SELECTOR, selector_css) 1]).
Proof.
  intros Hget Hwait.
  unfold _go_to_cms_page_and_wait, bind at 1, get, call. rewrite Hget. simpl.
  unfold bind at 1, _check_element, try_except, bind, assert_. simpl.
  unfold until_present, call. simpl. rewrite Hwait. simpl.
  unfold moved. simpl. rewrite <- app_assoc. reflexivity.
Qed.

End MoreProperties.

(** ** The handler run on the small site *)

Module Runs.
Import Toy.

(** The request of the end-to-end scenario: 2024-06-01, outdoor, two
    hours. *)
Definition scenario (times : list Z) (s : Site) : result unit * Handler Site Element :=
  make_reservations 0 june_1 false 2 times (handler_on s false).

(** Every slot of the hours 7, 8 and 9 fails on its click. *)
Definition all_stuck : Site :=
  site_with [slot "7:00 AM" true; slot "8:00 AM" true; slot "9:00 AM" true].

(** The slot of hour 7 can be booked. *)
Definition seven_free : Site := site_with [slot "7:00 AM" false].

(** No slot for 7; two for 8, the first stuck; one for 9. *)
Definition eight_second : Site :=
  site_with [slot "8:00 AM" true; slot "8:00 AM" false; slot "9:00 AM" false].

(** The user presses Ctrl-C while the slots of the table are looked up. *)
Definition interrupted : Site :=
  mkSite (portal ++ [slot "8:00 AM" false]) at_065956 slot_css.

(** C1 at the scenario of the spec: the hours 7, 8 and 9 are all
    attempted, every slot raises on its click, and [make_reservations]
    returns having printed nothing: no failure list names 7, 8 or 9. *)
Theorem no_failure_list_when_attempts_return_false :
  fst (scenario [7; 8; 9] all_stuck) = Ok tt
  /\ hours_attempted (trace (snd (scenario [7; 8; 9] all_stuck))) = [7; 8; 9]
  /\ map label (filter stuck (clicked (trace (snd (scenario [7; 8; 9] all_stuck)))))
     = ["7:00 AM"; "8:00 AM"; "9:00 AM"]
  /\ printed (trace (snd (scenario [7; 8; 9] all_stuck))) = [].
Proof.
  vm_compute. repeat split.
Qed.

(** C3 at a booking of hour 7: the one line printed is the literal of line
    40 with its braces; it holds neither ["07"] nor ["7"]. *)
Theorem success_message_lacks_the_hour :
  fst (scenario [7] seven_free) = Ok tt
  /\ printed (trace (snd (scenario [7] seven_free)))
     = ["Made a reservation at time {t:02d}:00. Check your email for more information"]
  /\ contains (fmt_0d 2 7) success_message = false
  /\ contains (str 7) success_message = false.
Proof.
  vm_compute. repeat split.
Qed.

(** C2 at the target 06:59:56 of [make_reservations], one microsecond
    past 07:00:00: the target is earlier than the time of day, yet the
    opening time computed is 06:59:56 of the same day, which has passed,
    and [_wait] returns without a sleep. *)
Theorem wait_opening_time_already_passed :
  at_065956 < just_past_7 mod ns_per_day
  /\ opening_time 6 59 56 just_past_7 = Ok (floor_d just_past_7 + at_065956)
  /\ floor_d just_past_7 + at_065956 < just_past_7
  /\ opening_time 6 59 56 just_past_7 <> Ok (add_days (floor_d just_past_7) 1 + at_065956)
  /\ _wait 5 6 59 56 (handler_on (mkSite [] just_past_7 "") true)
     = (Ok tt, mkHandler (mkSite [] just_past_7 "") "member" "secret" true [EvNow]).
Proof.
  repeat split; try (vm_compute; reflexivity).
  vm_compute. discriminate.
Qed.

(** C6 as stated fails: with the filters set, Ctrl-C during the lookup
    of the slots of hour 7 raises [KeyboardInterrupt] out of
    [_reserve_time], [except Exception] does not catch it, and the run
    ends there: hour 8 is never attempted. *)
Lemma keyboard_interrupt_ends_the_run :
  fst (prepare 0 june_1 false 2 (handler_on interrupted false)) = Ok tt
  /\ fst (_reserve_time 7 (snd (prepare 0 june_1 false 2 (handler_on interrupted false))))
     = Raise KeyboardInterrupt
  /\ fst (scenario [7; 8] interrupted) = Raise KeyboardInterrupt
  /\ hours_attempted (trace (snd (scenario [7; 8] interrupted))) = [7].
Proof.
  vm_compute. repeat split.
Qed.

(** The labels of 5 and 17, read off [time_text_labels]. *)
Lemma time_text_labels_at_5_and_17 :
  (1 <= 5 <= 11 /\ time_text 5 = "5:00 AM")
  /\ (13 <= 17 <= 23 /\ time_text 17 = "5:00 PM").
Proof.
  split; (split; [lia|]).
  - apply (proj1 (time_text_labels 5)). lia.
  - apply (proj1 (proj2 (proj2 (time_text_labels 17)))). lia.
Defined.

(** A second login on the small site changes nothing. *)
Lemma login_when_logged_in_on_site :
  _is_logged_in (handler_on seven_free true) = true
  /\ _login (handler_on seven_free true) = (Ok tt, handler_on seven_free true).
Proof.
  split; [reflexivity|].
  apply login_when_logged_in. reflexivity.
Defined.

(** The scenario with no hour: the run ends as the filters left it. *)
Lemma make_reservations_no_times_on_site :
  prepare 0 june_1 false 2 (handler_on seven_free false)
  = (Ok tt, snd (prepare 0 june_1 false 2 (handler_on seven_free false)))
  /\ scenario [] seven_free
     = (Ok tt, snd (prepare 0 june_1 false 2 (handler_on seven_free false))).
Proof.
  assert (Hprep : prepare 0 june_1 false 2 (handler_on seven_free false)
                  = (Ok tt, snd (prepare 0 june_1 false 2 (handler_on seven_free false))))
    by (vm_compute; reflexivity).
  split; [exact Hprep|].
  exact (proj1 (make_reservations_no_times 0 june_1 false 2 _ _ Hprep)).
Defined.

(** The dropdown of the small site that shows the outdoor courts, asked
    for outdoor courts. *)
Lemma set_dropdown_already_chosen_on_site :
  let e := mkElement "a.dropdown-display.ng-binding" outdoor_label false in
  let h := handler_on seven_free true in
  element_text e (driver h) = (Returns outdoor_label, seven_free)
  /\ set_dropdown e false 2 h
     = (Ok tt, mkHandler seven_free "member" "secret" true [EvText e; EvText e]).
Proof.
  intros e h. split; [reflexivity|].
  apply (set_dropdown_already_chosen e false 2 h outdoor_label seven_free seven_free);
    [reflexivity | reflexivity | left; reflexivity].
Defined.

(** The scenario with the hours 7, 8, 9 on a site with no slot for 7 and
    a free second slot for 8: the run stops at 8. *)
Lemma reserve_times_stops_at_8 :
  let h := snd (prepare 0 june_1 false 2 (handler_on eight_second false)) in
  let h1 := snd (reserve_times [7] [] h) in
  let h2 := snd (_reserve_time 8 h1) in
  prepare 0 june_1 false 2 (handler_on eight_second false) = (Ok tt, h)
  /\ reserve_times [7] [] h = (Ok (Continue []), h1)
  /\ _reserve_time 8 h1 = (Ok true, h2)
  /\ scenario [7; 8; 9] eight_second = (Ok tt, snd (print success_message h2))
  /\ hours_attempted (trace (snd (print success_message h2))) = [7; 8].
Proof.
  intros h h1 h2.
  assert (Hprep : prepare 0 june_1 false 2 (handler_on eight_second false) = (Ok tt, h))
    by (vm_compute; reflexivity).
  assert (Hpre : reserve_times [7] [] h = (Ok (Continue []), h1)) by (vm_compute; reflexivity).
  assert (Ht : _reserve_time 8 h1 = (Ok true, h2)) by (vm_compute; reflexivity).
  split; [exact Hprep|]. split; [exact Hpre|]. split; [exact Ht|].
  exact (proj2 reserve_times_in_order_until_booked 0%nat june_1 false 2 [7] [9] [] 8
           (handler_on eight_second false) h h1 h2 Hprep Hpre Ht).
Defined.

(** The stuck first slot of hour 8 raises on its click; the loop goes on
    to the second.  And with Ctrl-C during the lookup of the slots of
    hour 7, the run over 7 and 8 ends in [KeyboardInterrupt] there. *)
Lemma stuck_slot_is_skipped :
  let h := handler_on eight_second true in
  let e1 := slot "8:00 AM" true in
  let e2 := slot "8:00 AM" false in
  let hi := handler_on interrupted true in
  (book_steps e1 h
   = (Raise (WebDriverException "element click intercepted"), snd (book_steps e1 h))
   /\ book_first [e1; e2] h = book_first [e2] (snd (book_steps e1 h)))
  /\ (_reserve_time 7 hi = (Raise KeyboardInterrupt, snd (_reserve_time 7 hi))
      /\ is_Exception KeyboardInterrupt = false
      /\ reserve_and_report [7; 8] hi = (Raise KeyboardInterrupt, snd (_reserve_time 7 hi))
      /\ hours_attempted (trace (snd (_reserve_time 7 hi))) = [7]
      /\ printed (trace (snd (_reserve_time 7 hi))) = []).
Proof.
  intros h e1 e2 hi.
  assert (H1 : book_steps e1 h
               = (Raise (WebDriverException "element click intercepted"),
                  snd (book_steps e1 h))) by (vm_compute; reflexivity).
  assert (Hpre : reserve_times [] [] hi = (Ok (Continue []), hi)) by reflexivity.
  assert (H7 : _reserve_time 7 hi = (Raise KeyboardInterrupt, snd (_reserve_time 7 hi)))
    by (vm_compute; reflexivity).
  assert (Hx : is_Exception KeyboardInterrupt = false) by reflexivity.
  split.
  - split; [exact H1|].
    exact (proj1 slot_errors_are_not_fatal e1 [e2] h _ _ H1).
  - split; [exact H7|]. split; [exact Hx|].
    exact (proj2 (proj2 (proj2 (proj2 (proj2 slot_errors_are_not_fatal))))
             [] [8] [] 7 hi hi _ KeyboardInterrupt Hpre H7 Hx).
Defined.

(** At 06:00:00 the target 06:59:56 is still ahead: the opening time is
    06:59:56 of the same day. *)
Lemma opening_time_at_6 :
  (6 * ns_per_hour) mod ns_per_day
  <= 6 * ns_per_hour + 59 * ns_per_minute + 56 * ns_per_second
  /\ opening_time 6 59 56 (6 * ns_per_hour) = Ok at_065956.
Proof.
  assert (H : (6 * ns_per_hour) mod ns_per_day
              <= 6 * ns_per_hour + 59 * ns_per_minute + 56 * ns_per_second)
    by (vm_compute; discriminate).
  split; [exact H|].
  exact (opening_time_not_passed_is_today 6 59 56 (6 * ns_per_hour)
           ltac:(lia) ltac:(lia) ltac:(lia) H).
Defined.

End Runs.

(** ** More runs on the small site *)

Module MoreRuns.
Import Toy.
Import Runs.

(** Ten seconds before 06:59:56. *)
Definition at_065946 : Timestamp := at_065956 - 10 * ns_per_second.

(** A page with nothing on it. *)
Definition blank : Site := mkSite [] at_065956 "".

(** Hour 7 and itself. *)
Lemma time_text_injective_at_7 :
  (0 <= 7 <= 23) /\ time_text 7 = time_text 7 /\ 7 = 7.
Proof.
  assert (H : 0 <= 7 <= 23) by lia.
  split; [exact H|]. split; [reflexivity|].
  exact (time_text_injective_on_the_day 7 7 H H eq_refl).
Defined.

(** Hour 25 is read as 1 PM. *)
Lemma time_text_of_25 : 13 <= 13 /\ time_text 25 = "1:00 PM".
Proof.
  assert (H : 13 <= 13) by lia.
  split; [exact H|].
  exact (time_text_wraps_after_noon 13 H).
Defined.

(** One microsecond past 07:00:00 the opening time is on the same day. *)
Lemma opening_time_just_past_7 :
  exists k, (k = 0 \/ k = 1) /\
    opening_time 6 59 56 just_past_7
    = Ok (floor_d just_past_7 + k * ns_per_day
          + 6 * ns_per_hour + 59 * ns_per_minute + 56 * ns_per_second).
Proof.
  apply (proj1 (opening_time_same_or_next_day 6 59 56 just_past_7)). lia.
Defined.

(** Ten seconds early the sleep is of ten seconds. *)
Lemma sleep_duration_ten_seconds_early :
  at_065946 < at_065956 /\ 1 <= sleep_duration at_065956 at_065946.
Proof.
  assert (H : at_065946 < at_065956) by (vm_compute; reflexivity).
  split; [exact H|].
  exact (proj2 (sleep_duration_reaches_opening at_065956 at_065946) H).
Defined.

(** On the blank page the wait for an element times out and the note is
    appended. *)
Lemma check_element_on_blank_page :
  0 < 1
  /\ _check_element (CSS_SELECTOR, "div.x") " not there " 1 (handler_on blank true)
     = (Raise (TimeoutException ("Message: " ++ nl ++ "not there")),
        mkHandler blank "member" "secret" true [EvWaitPresent (CSS_SELECTOR, "div.x") 1]).
Proof.
  assert (H : 0 < 1) by lia.
  split; [exact H|].
  exact (proj2 (check_element_outcomes (CSS_SELECTOR, "div.x") " not there " 1
                  (handler_on blank true)) H _ _ eq_refl).
Defined.

(** Ten seconds early on the small site: one sleep of ten seconds. *)
Lemma wait_ten_seconds_early :
  let s := mkSite [] at_065946 "" in
  let s' := mkSite [] at_065956 "" in
  timestamp_now s = (at_065946, s)
  /\ opening_time 6 59 56 at_065946 = Ok at_065956
  /\ _wait 1 6 59 56 (handler_on s true)
     = (Ok tt, mkHandler s' "member" "secret" true [EvNow; EvSleep 10; EvNow]).
Proof.
  intros s s'.
  assert (Hnow : timestamp_now (driver (handler_on s true)) = (at_065946, s)) by reflexivity.
  assert (Hopen : opening_time 6 59 56 at_065946 = Ok at_065956) by (vm_compute; reflexivity).
  split; [exact Hnow|]. split; [exact Hopen|].
  refine (proj2 (wait_sleeps_at_most_once_on_a_good_clock 0 6 59 56 (handler_on s true)
                   at_065946 at_065956 s Hnow Hopen) _ s' at_065956 s' _ _ _).
  - vm_compute. reflexivity.
  - vm_compute. reflexivity.
  - reflexivity.
  - vm_compute. discriminate.
Defined.

(** The login on the small site. *)
Lemma login_steps_on_site :
  let h := handler_on seven_free false in
  _is_logged_in h = false
  /\ _login h = (Ok tt, snd (_login h))
  /\ exists login_input password_input login_button,
       login_went_through "member" "secret" seven_free (driver (snd (_login h)))
         login_input password_input login_button
       /\ trace (snd (_login h))
          = app (trace h)
              [EvGet "https://thetanglinclub.clubhouseonline-e3.net/login.aspx";
               EvWaitPresent (ID, _chunk ++ "UserName") 1;
               EvFindElement ID (_chunk ++ "UserName");
               EvSendKeys login_input "member";
               EvFindElement ID (_chunk ++ "Password");
               EvSendKeys password_input "secret";
               EvFindElement ID (_chunk ++ "LoginButton");
               EvClick login_button;
               EvWaitPresent (ID, "p_lt_Header_MyProfilePages_divSignedIn") 1]
       /\ _is_logged_in (snd (_login h)) = true.
Proof.
  intro h.
  assert (Hflag : _is_logged_in h = false) by reflexivity.
  assert (Hlogin : _login h = (Ok tt, snd (_login h))) by (vm_compute; reflexivity).
  split; [exact Hflag|]. split; [exact Hlogin|].
  exact (login_steps h (snd (_login h)) Hflag Hlogin).
Defined.

(** Hour 7 booked on the small site. *)
Lemma reserve_time_true_on_site :
  let h := handler_on seven_free true in
  _reserve_time 7 h = (Ok true, snd (_reserve_time 7 h))
  /\ exists found d0 e book_now_button h0 earlier,
       driver_find_elements CSS_SELECTOR "div.start-time.ng-binding.ng-scope" (driver h)
       = (Returns found, d0)
       /\ In e found
       /\ trace h0
          = (trace h
             ++ [EvReserveTime 7;
                 EvFindElements CSS_SELECTOR "div.start-time.ng-binding.ng-scope"]
             ++ map EvText found ++ earlier)%list
       /\ booking_went_through e book_now_button (driver h0)
            (driver (snd (_reserve_time 7 h)))
       /\ trace (snd (_reserve_time 7 h)) = (trace h0 ++ booking_calls e book_now_button)%list.
Proof.
  intro h.
  assert (H : _reserve_time 7 h = (Ok true, snd (_reserve_time 7 h)))
    by (vm_compute; reflexivity).
  split; [exact H|].
  exact (reserve_time_true_after_the_banner 7 h _ H).
Defined.

(** The slots of 8 kept among three. *)
Lemma with_text_on_site :
  let h := handler_on eight_second true in
  let es := [slot "8:00 AM" true; slot "8:00 AM" false; slot "9:00 AM" false] in
  with_text es "8:00 AM" h
  = (Ok [slot "8:00 AM" true; slot "8:00 AM" false], snd (with_text es "8:00 AM" h))
  /\ trace (snd (with_text es "8:00 AM" h)) = map EvText es.
Proof.
  intros h es.
  assert (H : with_text es "8:00 AM" h
              = (Ok [slot "8:00 AM" true; slot "8:00 AM" false],
                 snd (with_text es "8:00 AM" h))) by (vm_compute; reflexivity).
  split; [exact H|].
  exact (proj1 (with_text_reads_every_element es _ "8:00 AM" h _ H)).
Defined.

(** The date of the small site: June 1 is the second entry. *)
Lemma select_date_on_site :
  let h := handler_on seven_free true in
  let es := [mkElement "div.date.ng-binding" "May 31" false;
             mkElement "div.date.ng-binding" "Jun 1" false] in
  select_date es june_1 "Jun 1" h = (Ok tt, snd (select_date es june_1 "Jun 1" h))
  /\ exists l,
       clicked (trace (snd (select_date es june_1 "Jun 1" h))) = (clicked (trace h) ++ l)%list
       /\ (l = [] \/ exists e, In e es /\ l = [e])
       /\ (Ok tt = Ok tt -> l <> []).
Proof.
  intros h es.
  assert (H : select_date es june_1 "Jun 1" h
              = (Ok tt, snd (select_date es june_1 "Jun 1" h))) by (vm_compute; reflexivity).
  split; [exact H|].
  exact (proj1 (select_date_clicks_one_date es june_1 "Jun 1" h _ _ H)).
Defined.

(** Three hours are refused. *)
Lemma make_reservations_refuses_3 :
  3 <> 1 /\ 3 <> 2
  /\ make_reservations 0 june_1 false 3 [7] (handler_on seven_free false)
     = (Raise (AssertionError "duration can only be 1 or 2 hours"),
        handler_on seven_free false).
Proof.
  assert (H1 : 3 <> 1) by lia. assert (H2 : 3 <> 2) by lia.
  split; [exact H1|]. split; [exact H2|].
  exact (make_reservations_refuses_other_durations 0 june_1 false 3 [7]
           (handler_on seven_free false) H1 H2).
Defined.

(** On the blank page the login times out and the run ends there. *)
Lemma make_reservations_on_blank_page :
  let h := handler_on blank false in
  prepare 0 june_1 false 2 h
  = (Raise (TimeoutException
              ("Message: " ++ nl ++ "Timeout encountered while loading login page")),
     snd (prepare 0 june_1 false 2 h))
  /\ fst (make_reservations 0 june_1 false 2 [7] h)
     = Raise (TimeoutException
                ("Message: " ++ nl ++ "Timeout encountered while loading login page")).
Proof.
  intro h.
  assert (H : prepare 0 june_1 false 2 h
              = (Raise (TimeoutException
                          ("Message: " ++ nl ++ "Timeout encountered while loading login page")),
                 snd (prepare 0 june_1 false 2 h))) by (vm_compute; reflexivity).
  split; [exact H|].
  rewrite (proj1 (make_reservations_preparation_errors_are_fatal 0 june_1 false 2 [7]
                    h _ _ H)).
  reflexivity.
Defined.

(** Hour 8 in the list of 7 and 8. *)
Lemma failure_message_names_8 :
  In 8 [7; 8] /\ contains "  - 08:00" (failure_message [7; 8]) = true.
Proof.
  assert (H : In 8 [7; 8]) by (simpl; tauto).
  split; [exact H|].
  exact (failure_message_names_every_failure [7; 8] 8 H).
Defined.

(** The booking page on the blank site. *)
Lemma booking_page_on_blank_site :
  let h := handler_on blank true in
  wait_until_present (CSS_SELECTOR, selector_css) 1 blank
  = (Raises (TimeoutException "Message: "), blank)
  /\ fst (_go_to_cms_page_and_wait 0 6 59 56 h)
     = Raise (TimeoutException
                ("Message: " ++ nl ++ "Could not load Tennis booking table page")).
Proof.
  intro h.
  assert (H : wait_until_present (CSS_SELECTOR, selector_css) 1 blank
              = (Raises (TimeoutException "Message: "), blank)) by reflexivity.
  split; [exact H|].
  assert (Hget : driver_get
                   "https://thetanglinclub.clubhouseonline-e3.net/CMSModules/CHO/CourtManagement/CourtBooking.aspx"
                   (driver h) = (Returns tt, blank)) by reflexivity.
  rewrite (booking_page_that_does_not_load 0 6 59 56 h blank blank "Message: " Hget H).
  reflexivity.
Defined.

End MoreRuns.
